(** * Sentiment inference service: model and verified properties

    A shallow embedding of
    [src/lib/greengrass/components/sentiment/sentiment_service.py].

    The service keeps three module globals ([classifier], [request_count],
    [total_latency_ms]) and exposes four [async def] handlers on one event
    loop.  The handlers are embedded as programs of a small resumption monad
    ([coro]): reads and writes of the world are explicit operations and an
    [await] is a [Yield].  A segment between two suspension points runs
    without interruption, which is how an asyncio event loop schedules
    coroutines.  The suspension points of the web framework itself (reading
    the request, sending the reply) lie before a handler is entered and
    after it has returned, never inside it.  Each worker process has its own
    copy of the globals; the model is that of one worker.

    Conventions of the embedding:
    - Python [int] is [Z]; [//] with a positive divisor is [Z.div] (both
      floor); [int(x)] on a float truncates toward zero ([to_int]).
    - A Python [float] is represented by the rational number it denotes.
      The average latency is computed as Python computes it: the quotient
      of the two counters is rounded to the nearest binary64 number
      ([b64]), and [round(x, 2)] takes the hundredth nearest to that
      binary64 number (ties to the even one) and returns the binary64
      number nearest to it.  Results beyond the binary64 range, where
      Python raises [OverflowError], are not modelled.  Clock readings and
      scores are taken as exact rationals.
    - [str] is [string]; [str.lower] is modelled on the ASCII letters.
    - The [transformers] pipeline object is an opaque callable; its outcome
      on an input is either a list of label/score dictionaries or a raised
      exception (represented by its message).
    - [time.time()] and [datetime.now()] read an oracle clock carried by the
      world; every read advances the oracle.
    - Every invocation of the pipeline is appended to a ghost log, so that
      invocations can be counted. *)

From Stdlib Require Import ZArith QArith Qround Qabs Qpower Qreduction.
From Stdlib Require Import String Ascii List Bool Lia Lqa.
From ExtLib Require Import Structures.Monad.
Import ListNotations.
Import MonadNotation.
Local Open Scope monad_scope.
Local Open Scope Z_scope.
Set Warnings "-abstract-large-number".

(** ** Python values *)

(** Outcome of a Python call: a value, or a raised [Exception] with its
    [str(e)]. *)
Inductive py_result (A : Type) : Type :=
| Returned (a : A)
| Raised (msg : string).
Arguments Returned {A} a.
Arguments Raised {A} msg.

(** One dictionary of the pipeline's output: [{"label": ..., "score": ...}]. *)
Record RawResult : Type := mkRaw {
  raw_label : string;
  raw_score : Q
}.

(** Argument of [classifier(...)]: a single [str] or a [List[str]]. *)
Inductive PipeInput : Type :=
| OneText (text : string)
| ManyTexts (texts : list string).

(** The loaded pipeline object, applied with [classifier(x)]. *)
Record Pipeline : Type := mkPipeline {
  pipe_call : PipeInput -> py_result (list RawResult)
}.

(** ** The world: module globals, clock oracle, instrumentation *)

Record World : Type := mkWorld {
  classifier : option Pipeline;       (* classifier = None *)
  start_time : Q;                     (* start_time = datetime.now() *)
  request_count : Z;                  (* request_count = 0 *)
  total_latency_ms : Z;               (* total_latency_ms = 0 *)
  wall_clock : nat -> Q;              (* oracle: the n-th clock reading, in seconds *)
  ticks : nat;                        (* clock readings taken so far *)
  pipeline_calls : list PipeInput     (* ghost: log of classifier invocations *)
}.

Definition set_classifier (p : Pipeline) (w : World) : World :=
  mkWorld (Some p) (start_time w) (request_count w) (total_latency_ms w)
          (wall_clock w) (ticks w) (pipeline_calls w).

Definition set_request_count (n : Z) (w : World) : World :=
  mkWorld (classifier w) (start_time w) n (total_latency_ms w)
          (wall_clock w) (ticks w) (pipeline_calls w).

Definition set_total_latency_ms (n : Z) (w : World) : World :=
  mkWorld (classifier w) (start_time w) (request_count w) n
          (wall_clock w) (ticks w) (pipeline_calls w).

Definition tick (w : World) : World :=
  mkWorld (classifier w) (start_time w) (request_count w) (total_latency_ms w)
          (wall_clock w) (S (ticks w)) (pipeline_calls w).

Definition log_call (x : PipeInput) (w : World) : World :=
  mkWorld (classifier w) (start_time w) (request_count w) (total_latency_ms w)
          (wall_clock w) (ticks w) (pipeline_calls w ++ [x]).

(** The module as imported, before the startup hook has run. *)
Definition initial_world (clock : nat -> Q) : World :=
  mkWorld None (clock 0%nat) 0 0 clock 1%nat [].

(** ** Coroutines *)

(** A coroutine is a tree of world reads and writes and suspension points.
    [Yield] stands for an [await] at which the event loop may run another
    task. *)
Inductive coro (R : Type) : Type :=
| Ret (r : R)
| Get (k : World -> coro R)
| Put (w : World) (k : coro R)
| Yield (k : coro R).
Arguments Ret {R} r.
Arguments Get {R} k.
Arguments Put {R} w k.
Arguments Yield {R} k.

Fixpoint coro_bind {A B : Type} (c : coro A) (f : A -> coro B) : coro B :=
  match c with
  | Ret a => f a
  | Get k => Get (fun w => coro_bind (k w) f)
  | Put w k => Put w (coro_bind k f)
  | Yield k => Yield (coro_bind k f)
  end.

#[export] Instance Monad_coro : Monad coro :=
  {| ret := @Ret; bind := @coro_bind |}.

Definition read {A : Type} (f : World -> A) : coro A :=
  Get (fun w => Ret (f w)).

Definition modify (f : World -> World) : coro unit :=
  Get (fun w => Put (f w) (Ret tt)).

(** Runs a coroutine from world [w] up to its next suspension point: the
    result is the world reached and either the suspended rest or the
    returned value. *)
Fixpoint run_segment {R : Type} (c : coro R) (w : World) : World * (coro R + R) :=
  match c with
  | Ret r => (w, inr r)
  | Get k => run_segment (k w) w
  | Put w' k => run_segment k w'
  | Yield k => (w, inl k)
  end.

(** A coroutine that never suspends. *)
Fixpoint no_await {R : Type} (c : coro R) : Prop :=
  match c with
  | Ret _ => True
  | Get k => forall w, no_await (k w)
  | Put _ k => no_await k
  | Yield _ => False
  end.

(** Runs a coroutine to completion, resuming it at once whenever it
    suspends (a single task alone on the event loop). *)
Fixpoint run {R : Type} (c : coro R) (w : World) : World * R :=
  match c with
  | Ret r => (w, r)
  | Get k => run (k w) w
  | Put w' k => run k w'
  | Yield k => run k w
  end.

(** ** Primitives used by the handlers *)

(** [time.time()]: the next reading of the oracle clock, in seconds. *)
Definition time_time : coro Q :=
  Get (fun w => Put (tick w) (Ret (wall_clock w (ticks w)))).

(** [datetime.now()], on the same oracle.  The ISO-8601 rendering of
    [isoformat()] is not modelled: a timestamp is the reading itself. *)
Definition datetime_now : coro Q := time_time.

(** [classifier(x)], with the invocation logged. *)
Definition call_classifier (p : Pipeline) (x : PipeInput)
  : coro (py_result (list RawResult)) :=
  modify (log_call x) ;;
  ret (pipe_call p x).

(** [int(x)] on a float: truncation toward zero. *)
Definition to_int (x : Q) : Z := Z.quot (Qnum x) (Zpos (Qden x)).

(** [int((stop - start) * 1000)]. *)
Definition elapsed_ms (start stop : Q) : Z :=
  to_int ((stop - start) * inject_Z 1000)%Q.

(** The integer nearest to [y], ties to the even one. *)
Definition round_half_even (y : Q) : Z :=
  let f := Qfloor y in
  match ((y - inject_Z f) ?= (1 # 2))%Q with
  | Lt => f
  | Gt => f + 1
  | Eq => if Z.even f then f else f + 1
  end.

Definition pow2 (e : Z) : Q := ((2 # 1) ^ e)%Q.

(** For [q > 0], the exponent [e] with [2^e <= q < 2^(e+1)]. *)
Definition ilog2 (q : Q) : Z :=
  let e := Z.log2 (Qnum q) - Z.log2 (Zpos (Qden q)) in
  if Qle_bool (pow2 e) q then e else e - 1.

(** The binary64 number nearest to [q > 0]: a significand of 53 bits (fewer
    below [2^-1022]), ties to the even significand. *)
Definition b64_pos (q : Q) : Q :=
  let ulp := pow2 (Z.max (ilog2 q) (-1022) - 52) in
  (inject_Z (round_half_even (q / ulp)) * ulp)%Q.

(** The binary64 number nearest to [q]: the value of a correctly rounded
    float operation whose exact result is [q]. *)
Definition b64 (q : Q) : Q :=
  let r := Qred q in
  match (r ?= 0)%Q with
  | Eq => 0%Q
  | Gt => b64_pos r
  | Lt => (- b64_pos (- r))%Q
  end.
Arguments b64 q : simpl never.

(** [round(x, 2)] on a float [x]: the decimal with two places nearest to
    the exact value of [x], ties to even, converted back to a float. *)
Definition round2 (x : Q) : Q :=
  b64 (round_half_even (x * inject_Z 100)%Q # 100)%Q.


(** [str.lower()], on the ASCII letters. *)
Definition lower_ascii (c : ascii) : ascii :=
  let n := nat_of_ascii c in
  if ((65 <=? n) && (n <=? 90))%nat then ascii_of_nat (n + 32) else c.

Fixpoint lower (s : string) : string :=
  match s with
  | EmptyString => EmptyString
  | String c s' => String (lower_ascii c) (lower s')
  end.

(** ** Request and response models *)

(** Default of [os.getenv("MODEL_NAME", ...)]. *)
Definition MODEL_NAME : string :=
  "distilbert-base-uncased-finetuned-sst-2-english".

Record SentimentRequest : Type := mkSentimentRequest {
  req_text : string;
  req_context : option string
}.

Record BatchSentimentRequest : Type := mkBatchSentimentRequest {
  req_texts : list string
}.

Record SentimentResponse : Type := mkSentimentResponse {
  sentiment : string;
  score : Q;
  label : string;
  source : string;
  latency_ms : Z;
  context : option string;
  timestamp : Q
}.

Record HealthResponse : Type := mkHealthResponse {
  status : string;
  service : string;
  model : string;
  uptime_seconds : Z;
  total_requests : Z;
  avg_latency_ms : Q
}.

(** One element of the ["results"] list of a batch response. *)
Record BatchItem : Type := mkBatchItem {
  item_text : string;
  item_sentiment : string;
  item_score : Q;
  item_label : string;
  item_latency_ms : Z
}.

(** The dictionary returned by [analyze_batch]. *)
Record BatchResponse : Type := mkBatchResponse {
  results : list BatchItem;
  batch_source : string;
  batch_total_latency_ms : Z;
  count : Z;
  batch_timestamp : Q
}.

(** The dictionary returned by [get_metrics]. *)
Record MetricsResponse : Type := mkMetricsResponse {
  sentiment_service_uptime_seconds : Z;
  sentiment_service_requests_total : Z;
  sentiment_service_latency_avg_ms : Q;
  sentiment_service_latency_total_ms : Z;
  sentiment_service_model : string;
  sentiment_service_status : Z
}.

(** What the client receives: the body, or an [HTTPException]. *)
Inductive http_result (A : Type) : Type :=
| OK200 (body : A)
| HTTPException (status_code : Z) (detail : string).
Arguments OK200 {A} body.
Arguments HTTPException {A} status_code detail.

(** ** Field validation (pydantic) *)

(** [text: str = Field(..., min_length=1, max_length=5000)]. *)
Definition SentimentRequest_valid (r : SentimentRequest) : bool :=
  ((1 <=? String.length (req_text r)) && (String.length (req_text r) <=? 5000))%nat.

(** [texts: List[str] = Field(..., min_items=1, max_items=100)]. *)
Definition BatchSentimentRequest_valid (r : BatchSentimentRequest) : bool :=
  ((1 <=? List.length (req_texts r)) && (List.length (req_texts r) <=? 100))%nat.

(** ** Startup hook *)

Definition warmup_text : string :=
  "This is a test sentence for warming up the model.".

(** [startup_event].  [load] is the outcome of the [pipeline(...)] factory
    call.  The global is assigned as soon as the factory returns, before the
    warm-up inference; every exception is logged and raised again. *)
Definition startup_event (load : py_result Pipeline) : coro (py_result unit) :=
  start <- time_time ;;
  match load with
  | Raised msg => ret (Raised msg)
  | Returned p =>
      modify (set_classifier p) ;;
      stop <- time_time ;;
      let load_time := elapsed_ms start stop in
      out <- call_classifier p (OneText warmup_text) ;;
      match out with
      | Raised msg => ret (Raised msg)
      | Returned _ => ret (Returned tt)
      end
  end.

(** ** Read-only endpoints *)

(** [total_latency_ms / request_count if request_count > 0 else 0]: the
    true division of two [int]s is the correctly rounded float. *)
Definition avg_latency (w : World) : Q :=
  if 0 <? request_count w
  then b64 (inject_Z (total_latency_ms w) / inject_Z (request_count w))%Q
  else 0%Q.

Definition truthy {A : Type} (o : option A) : bool :=
  match o with Some _ => true | None => false end.

(** [GET /health]. *)
Definition health_check : coro HealthResponse :=
  now <- datetime_now ;;
  w <- read (fun w => w) ;;
  let uptime := to_int (now - start_time w)%Q in
  ret {| status := if truthy (classifier w) then "healthy" else "unhealthy";
         service := "sentiment";
         model := MODEL_NAME;
         uptime_seconds := uptime;
         total_requests := request_count w;
         avg_latency_ms := round2 (avg_latency w) |}.

(** [GET /metrics]. *)
Definition get_metrics : coro MetricsResponse :=
  now <- datetime_now ;;
  w <- read (fun w => w) ;;
  let uptime := to_int (now - start_time w)%Q in
  ret {| sentiment_service_uptime_seconds := uptime;
         sentiment_service_requests_total := request_count w;
         sentiment_service_latency_avg_ms := round2 (avg_latency w);
         sentiment_service_latency_total_ms := total_latency_ms w;
         sentiment_service_model := MODEL_NAME;
         sentiment_service_status := if truthy (classifier w) then 1 else 0 |}.

(** ** Inference endpoints *)

(** [POST /analyze].  The slow-request warning only logs and is left out. *)
Definition analyze_sentiment (request : SentimentRequest)
  : coro (http_result SentimentResponse) :=
  c <- read classifier ;;
  match c with
  | None => ret (HTTPException 503 "Model not loaded")
  | Some cls =>
      start <- time_time ;;
      out <- call_classifier cls (OneText (req_text request)) ;;
      match out with
      | Raised msg => ret (HTTPException 500 msg)
      | Returned [] => ret (HTTPException 500 "list index out of range")
      | Returned (result :: _) =>
          stop <- time_time ;;
          let latency_ms := elapsed_ms start stop in
          modify (fun w => set_request_count (request_count w + 1) w) ;;
          modify (fun w => set_total_latency_ms (total_latency_ms w + latency_ms) w) ;;
          now <- datetime_now ;;
          ret (OK200 {| sentiment := lower (raw_label result);
                        score := raw_score result;
                        label := raw_label result;
                        source := "greengrass-edge";
                        latency_ms := latency_ms;
                        context := req_context request;
                        timestamp := now |})
      end
  end.

(** One dictionary of the comprehension. *)
Definition batch_item (per_text_latency : Z) (text : string) (result : RawResult)
  : BatchItem :=
  {| item_text := text;
     item_sentiment := lower (raw_label result);
     item_score := raw_score result;
     item_label := raw_label result;
     item_latency_ms := per_text_latency |}.

(** The list comprehension over [zip(request.texts, results)]. *)
Definition batch_items (per_text_latency : Z) (texts : list string)
  (rs : list RawResult) : list BatchItem :=
  map (fun tr : string * RawResult =>
         let (text, result) := tr in batch_item per_text_latency text result)
      (combine texts rs).

(** [POST /analyze/batch].  [//] raises [ZeroDivisionError] on an empty
    list, which the handler's [except] turns into a 500. *)
Definition analyze_batch (request : BatchSentimentRequest)
  : coro (http_result BatchResponse) :=
  c <- read classifier ;;
  match c with
  | None => ret (HTTPException 503 "Model not loaded")
  | Some cls =>
      start <- time_time ;;
      out <- call_classifier cls (ManyTexts (req_texts request)) ;;
      match out with
      | Raised msg => ret (HTTPException 500 msg)
      | Returned rs =>
          stop <- time_time ;;
          let total_time_ms := elapsed_ms start stop in
          let n := Z.of_nat (List.length (req_texts request)) in
          modify (fun w => set_request_count (request_count w + n) w) ;;
          modify (fun w => set_total_latency_ms (total_latency_ms w + total_time_ms) w) ;;
          if n =? 0
          then ret (HTTPException 500 "integer division or modulo by zero")
          else
            let per_text_latency := total_time_ms / n in
            now <- datetime_now ;;
            ret (OK200 {| results := batch_items per_text_latency (req_texts request) rs;
                          batch_source := "greengrass-edge";
                          batch_total_latency_ms := total_time_ms;
                          count := n;
                          batch_timestamp := now |})
      end
  end.

(** ** Routing (FastAPI) *)

(** A request as it arrives: the body is validated against the pydantic
    model before the handler is entered; a body that fails validation is
    answered with 422 and the handler does not run. *)
Inductive Request : Type :=
| POST_analyze (r : SentimentRequest)
| POST_analyze_batch (r : BatchSentimentRequest)
| GET_health
| GET_metrics.

Inductive Response : Type :=
| AnalyzeReply (r : http_result SentimentResponse)
| BatchReply (r : http_result BatchResponse)
| HealthReply (r : HealthResponse)
| MetricsReply (r : MetricsResponse).

Definition validation_error {A : Type} : http_result A :=
  HTTPException 422 "Unprocessable Entity".

Definition post_analyze (r : SentimentRequest) : coro (http_result SentimentResponse) :=
  if SentimentRequest_valid r then analyze_sentiment r else ret validation_error.

Definition post_analyze_batch (r : BatchSentimentRequest)
  : coro (http_result BatchResponse) :=
  if BatchSentimentRequest_valid r then analyze_batch r else ret validation_error.

Definition serve (q : Request) : coro Response :=
  match q with
  | POST_analyze r => x <- post_analyze r ;; ret (AnalyzeReply x)
  | POST_analyze_batch r => x <- post_analyze_batch r ;; ret (BatchReply x)
  | GET_health => x <- health_check ;; ret (HealthReply x)
  | GET_metrics => x <- get_metrics ;; ret (MetricsReply x)
  end.

(** ** Sample data *)

Module Sample.

Definition positive : RawResult := mkRaw "POSITIVE" (9998 # 10000).
Definition negative : RawResult := mkRaw "NEGATIVE" (98 # 100).

(** Labels a text NEGATIVE when it starts with a capital S. *)
Definition classify (t : string) : RawResult :=
  match t with
  | String "S"%char _ => negative
  | _ => positive
  end.

Definition pipe : Pipeline :=
  mkPipeline (fun x =>
    match x with
    | OneText t => Returned [classify t]
    | ManyTexts ts => Returned (map classify ts)
    end).

(** Loads, but raises on every inference. *)
Definition broken_pipe : Pipeline :=
  mkPipeline (fun _ => Raised "CUDA error").

(** A clock that advances 7.5 ms per reading. *)
Definition clock (n : nat) : Q := (Z.of_nat n * 15 # 2000)%Q.

Definition ready : World :=
  mkWorld (Some pipe) (clock 0%nat) 0 0 clock 1%nat [].

Definition texts3 : list string :=
  ["The room was wonderful!"; "Service was terrible."; "Average experience."]%string.

Fixpoint chars (n : nat) : string :=
  match n with
  | O => EmptyString
  | S n' => String "a"%char (chars n')
  end.

End Sample.

(** ** Derived notions used in the statements *)

(** World left by a handler that took its two clock readings around one
    classifier call and then added [n] requests and the elapsed time. *)
Definition after_inference (x : PipeInput) (n : Z) (w : World) : World :=
  set_total_latency_ms
    (total_latency_ms w + elapsed_ms (wall_clock w (ticks w)) (wall_clock w (S (ticks w))))
    (set_request_count (request_count w + n) (tick (log_call x (tick w)))).

(** Contract of the capability on a batch: one result per input text. *)
Definition one_result_per_text (p : Pipeline) : Prop :=
  forall texts rs,
    pipe_call p (ManyTexts texts) = Returned rs ->
    List.length rs = List.length texts.

(** Contract of the capability on scores. *)
Definition scores_in_unit_interval (p : Pipeline) : Prop :=
  forall x rs,
    pipe_call p x = Returned rs ->
    Forall (fun r => (0 <= raw_score r /\ raw_score r <= 1)%Q) rs.

(** Serving requests one after the other. *)
Definition serve_all (qs : list Request) (w : World) : World :=
  fold_left (fun w q => fst (run (serve q) w)) qs w.

(** The status a health query reports in world [w]. *)
Definition health_status (w : World) : string :=
  status (snd (run health_check w)).

(** ** The event loop *)

(** A task of the event loop: a coroutine still to be resumed, or the reply
    it has produced. *)
Inductive task : Type :=
| Pending (c : coro Response)
| Finished (r : Response).

Record EventLoop : Type := mkEventLoop {
  world : World;
  tasks : list task
}.

(** One task per request received, none of them started. *)
Definition spawn (qs : list Request) : list task :=
  map (fun q => Pending (serve q)) qs.

Fixpoint replace_nth {A : Type} (i : nat) (x : A) (l : list A) {struct l} : list A :=
  match l, i with
  | [], _ => []
  | _ :: l', O => x :: l'
  | y :: l', S i' => y :: replace_nth i' x l'
  end.

(** One turn of the loop: task [i], if it is pending, runs from the current
    world up to its next suspension point.  Nothing else runs meanwhile. *)
Definition turn (l : EventLoop) (i : nat) : EventLoop :=
  match nth_error (tasks l) i with
  | Some (Pending c) =>
      let (w', k) := run_segment c (world l) in
      mkEventLoop w'
        (replace_nth i
           (match k with inl c' => Pending c' | inr r => Finished r end)
           (tasks l))
  | _ => l
  end.

(** An interleaving is the order in which the loop picks tasks. *)
Definition run_schedule (sched : list nat) (l : EventLoop) : EventLoop :=
  fold_left turn sched l.

(** The metrics update a reply stands for: requests counted and latency
    added. *)
Definition recorded (r : Response) : Z * Z :=
  match r with
  | AnalyzeReply (OK200 resp) => (1, latency_ms resp)
  | BatchReply (OK200 resp) => (count resp, batch_total_latency_ms resp)
  | _ => (0, 0)
  end.

Definition task_recorded (t : task) : Z * Z :=
  match t with
  | Finished r => recorded r
  | Pending _ => (0, 0)
  end.

Definition recorded_count (ts : list task) : Z :=
  fold_right (fun t acc => fst (task_recorded t) + acc) 0 ts.

Definition recorded_latency (ts : list task) : Z :=
  fold_right (fun t acc => snd (task_recorded t) + acc) 0 ts.

(** [done] is the task list [ts] at an earlier time: the same tasks, some of
    those finished in [ts] still pending. *)
Definition earlier (done ts : list task) : Prop :=
  Forall2 (fun d t => d = t \/ exists c, d = Pending c) done ts.

(** The counters of [w] are those of [w0] plus the updates of exactly the
    tasks finished in [done]. *)
Definition counters_of (w0 : World) (done : list task) (w : World) : Prop :=
  request_count w = request_count w0 + recorded_count done /\
  total_latency_ms w = total_latency_ms w0 + recorded_latency done.

(** What a finished reader saw: its reply is the one the endpoint computes
    in a world whose two counters come from one set of completed updates. *)
Definition consistent_read (w0 : World) (ts : list task) (t : task) : Prop :=
  match t with
  | Finished (HealthReply h) =>
      exists done w, earlier done ts /\ counters_of w0 done w /\
                     h = snd (run health_check w)
  | Finished (MetricsReply m) =>
      exists done w, earlier done ts /\ counters_of w0 done w /\
                     m = snd (run get_metrics w)
  | _ => True
  end.

Module Contrast.

(** Not part of the service: a handler that suspends between its two
    counter updates, to show what the loop model is able to tell apart. *)
Definition record_with_await (n lat : Z) : coro Response :=
  modify (fun w => set_request_count (request_count w + n) w) ;;
  Yield (modify (fun w => set_total_latency_ms (total_latency_ms w + lat) w) ;;
         x <- get_metrics ;; ret (MetricsReply x)).

End Contrast.

(** Every task is unstarted or finished: none is suspended half way. *)
Definition unstarted_or_finished (qs : list Request) (ts : list task) : Prop :=
  Forall2 (fun q t => t = Pending (serve q) \/ exists r, t = Finished r) qs ts.

(** The invariant of the event loop. *)
Definition loop_invariant (w0 : World) (qs : list Request) (l : EventLoop) : Prop :=
  counters_of w0 (tasks l) (world l) /\
  unstarted_or_finished qs (tasks l) /\
  Forall (consistent_read w0 (tasks l)) (tasks l).

(** ** Notions for the further properties *)

(** The oracle clock never runs backwards. *)
Definition monotone_clock (clock : nat -> Q) : Prop :=
  forall n, (clock n <= clock (S n))%Q.

(** The requests served by the two read-only endpoints. *)
Definition read_only (q : Request) : bool :=
  match q with
  | GET_health | GET_metrics => true
  | _ => false
  end.

(** The body of the request passes the pydantic model of its route. *)
Definition request_valid (q : Request) : bool :=
  match q with
  | POST_analyze r => SentimentRequest_valid r
  | POST_analyze_batch r => BatchSentimentRequest_valid r
  | GET_health | GET_metrics => true
  end.

(** HTTP status code of a reply. *)
Definition http_status {A : Type} (r : http_result A) : Z :=
  match r with
  | OK200 _ => 200
  | HTTPException code _ => code
  end.

Definition reply_status (r : Response) : Z :=
  match r with
  | AnalyzeReply x => http_status x
  | BatchReply x => http_status x
  | HealthReply _ | MetricsReply _ => 200
  end.

(** Sum of the ["latency_ms"] entries of a batch response. *)
Definition sum_latencies (items : list BatchItem) : Z :=
  fold_right (fun it acc => item_latency_ms it + acc) 0 items.

(** The world a worker is in after the startup hook has run with load
    outcome [load] and the requests [qs] have been served. *)
Definition worker_world (clock : nat -> Q) (load : py_result Pipeline)
  (qs : list Request) : World :=
  serve_all qs (fst (run (startup_event load) (initial_world clock))).

(** ** Worker process *)






(** ** Proof automation *)

Ltac no_await_tac :=
  repeat first
    [ exact I
    | progress intros
    | progress cbn
    | match goal with
      | |- no_await (match ?x with _ => _ end) => destruct x
      | |- no_await (if ?b then _ else _) => destruct b
      end ].

(** Linear arithmetic over [Q] with integers injected. *)
Ltac q_arith :=
  change (inject_Z 1) with 1%Q in *;
  change (inject_Z 100) with (100 # 1)%Q in *;
  repeat match goal with
         | z : Z |- _ =>
             match goal with
             | |- context [inject_Z z] => generalize dependent (inject_Z z); intros
             | _ : context [inject_Z z] |- _ => generalize dependent (inject_Z z); intros
             end
         end;
  lra.

(** * Properties *)

(** ** Coroutines without suspension points *)

Lemma run_segment_no_await {R : Type} (c : coro R) :
  no_await c -> forall w, run_segment c w = (fst (run c w), inr (snd (run c w))).
Proof.
  induction c as [r | k IH | w' k IH | k IH]; simpl; intros Hc w.
  - reflexivity.
  - apply IH, Hc.
  - apply IH, Hc.
  - contradiction.
Qed.

Lemma no_await_bind {A B : Type} (c : coro A) (f : A -> coro B) :
  no_await c -> (forall a, no_await (f a)) -> no_await (coro_bind c f).
Proof.
  intros Hc Hf.
  induction c as [r | k IH | w' k IH | k IH]; simpl in *.
  - apply Hf.
  - intros w. apply IH, Hc.
  - apply IH, Hc.
  - contradiction.
Qed.

Lemma run_bind {A B : Type} (c : coro A) (f : A -> coro B) (w : World) :
  run (coro_bind c f) w = run (f (snd (run c w))) (fst (run c w)).
Proof.
  revert w; induction c as [r | k IH | w' k IH | k IH]; simpl; intros w; auto.
Qed.

(** None of the handlers contains an [await]. *)
Lemma analyze_sentiment_no_await r : no_await (analyze_sentiment r).
Proof. unfold analyze_sentiment. no_await_tac. Qed.

Lemma analyze_batch_no_await r : no_await (analyze_batch r).
Proof. unfold analyze_batch. no_await_tac. Qed.

Lemma health_check_no_await : no_await health_check.
Proof. unfold health_check. no_await_tac. Qed.

Lemma get_metrics_no_await : no_await get_metrics.
Proof. unfold get_metrics. no_await_tac. Qed.

Lemma serve_no_await q : no_await (serve q).
Proof.
  destruct q as [r | r | | ]; unfold serve;
    apply (@no_await_bind _ Response); try (intros; exact I).
  - unfold post_analyze. destruct (SentimentRequest_valid r).
    + apply analyze_sentiment_no_await.
    + exact I.
  - unfold post_analyze_batch. destruct (BatchSentimentRequest_valid r).
    + apply analyze_batch_no_await.
    + exact I.
  - apply health_check_no_await.
  - apply get_metrics_no_await.
Qed.

(** ** What a run of each handler does *)

Lemma analyze_batch_not_ready request w :
  classifier w = None ->
  run (analyze_batch request) w = (w, HTTPException 503 "Model not loaded").
Proof. intros Hc. unfold analyze_batch. cbn. rewrite Hc. reflexivity. Qed.

Lemma analyze_sentiment_not_ready request w :
  classifier w = None ->
  run (analyze_sentiment request) w = (w, HTTPException 503 "Model not loaded").
Proof. intros Hc. unfold analyze_sentiment. cbn. rewrite Hc. reflexivity. Qed.

Lemma analyze_batch_raised request w cls msg :
  classifier w = Some cls ->
  pipe_call cls (ManyTexts (req_texts request)) = Raised msg ->
  run (analyze_batch request) w =
    (log_call (ManyTexts (req_texts request)) (tick w), HTTPException 500 msg).
Proof.
  intros Hc Hp. unfold analyze_batch. cbn. rewrite Hc. cbn. rewrite Hp. reflexivity.
Qed.

Lemma analyze_sentiment_raised request w cls msg :
  classifier w = Some cls ->
  pipe_call cls (OneText (req_text request)) = Raised msg ->
  run (analyze_sentiment request) w =
    (log_call (OneText (req_text request)) (tick w), HTTPException 500 msg).
Proof.
  intros Hc Hp. unfold analyze_sentiment. cbn. rewrite Hc. cbn. rewrite Hp. reflexivity.
Qed.

(** A batch call answers 200 only along one path of the handler. *)
Lemma analyze_batch_ok_inv request w w' resp :
  run (analyze_batch request) w = (w', OK200 resp) ->
  exists cls rs,
    let texts := req_texts request in
    let n := Z.of_nat (List.length texts) in
    let total := elapsed_ms (wall_clock w (ticks w)) (wall_clock w (S (ticks w))) in
    classifier w = Some cls /\
    pipe_call cls (ManyTexts texts) = Returned rs /\
    n <> 0 /\
    w' = tick (after_inference (ManyTexts texts) n w) /\
    resp = {| results := batch_items (total / n) texts rs;
              batch_source := "greengrass-edge";
              batch_total_latency_ms := total;
              count := n;
              batch_timestamp := wall_clock w (S (S (ticks w))) |}.
Proof.
  unfold analyze_batch. cbn.
  destruct (classifier w) as [cls|] eqn:Hc; cbn; [|discriminate].
  destruct (pipe_call cls (ManyTexts (req_texts request))) as [rs|msg] eqn:Hp;
    cbn; [|discriminate].
  destruct (Z.of_nat (List.length (req_texts request)) =? 0) eqn:Hn;
    cbn; [discriminate|].
  intros H. inversion H; subst; clear H.
  exists cls, rs. cbn. repeat split; auto.
  apply Z.eqb_neq, Hn.
Qed.

(** Likewise for a single analysis. *)
Lemma analyze_sentiment_ok_inv request w w' resp :
  run (analyze_sentiment request) w = (w', OK200 resp) ->
  exists cls result rest,
    let x := OneText (req_text request) in
    let lat := elapsed_ms (wall_clock w (ticks w)) (wall_clock w (S (ticks w))) in
    classifier w = Some cls /\
    pipe_call cls x = Returned (result :: rest) /\
    w' = tick (after_inference x 1 w) /\
    resp = {| sentiment := lower (raw_label result);
              score := raw_score result;
              label := raw_label result;
              source := "greengrass-edge";
              latency_ms := lat;
              context := req_context request;
              timestamp := wall_clock w (S (S (ticks w))) |}.
Proof.
  unfold analyze_sentiment. cbn.
  destruct (classifier w) as [cls|] eqn:Hc; cbn; [|discriminate].
  destruct (pipe_call cls (OneText (req_text request))) as [[|result rest]|msg] eqn:Hp;
    cbn; try discriminate.
  intros H. inversion H; subst; clear H.
  exists cls, result, rest. cbn. repeat split; auto.
Qed.

(** ** Rounding: to the nearest integer, to binary64, to hundredths *)


Lemma round_half_even_int (k : Z) : round_half_even (inject_Z k) = k.
Proof.
  unfold round_half_even. rewrite Qfloor_Z.
  assert (H : (inject_Z k - inject_Z k ?= 1 # 2)%Q = Lt).
  { rewrite <- Qlt_alt. q_arith. }
  rewrite H. reflexivity.
Qed.


Lemma pow2_pos e : (0 < pow2 e)%Q.
Proof. apply Qpower_0_lt. reflexivity. Qed.

Lemma pow2_plus a b : (pow2 (a + b) == pow2 a * pow2 b)%Q.
Proof. apply Qpower_plus. discriminate. Qed.

Lemma pow2_Z n : 0 <= n -> (pow2 n == inject_Z (2 ^ n))%Q.
Proof. intros Hn. unfold pow2. rewrite Zpower_Qpower by exact Hn. reflexivity. Qed.


Lemma ilog2_upper q : (0 < q)%Q -> (q < pow2 (ilog2 q + 1))%Q.
Proof.
  intros Hq. unfold ilog2.
  destruct (Qle_bool (pow2 (Z.log2 (Qnum q) - Z.log2 (Z.pos (Qden q)))) q) eqn:Hb.
  - clear Hb. destruct q as [a b]. cbn [Qnum Qden].
    assert (Ha : 0 < a) by (unfold Qlt in Hq; simpl in Hq; lia).
    set (la := Z.log2 a). set (lb := Z.log2 (Z.pos b)).
    assert (Hla : a < 2 ^ (la + 1)).
    { replace (la + 1) with (Z.succ la) by lia. apply Z.log2_spec. exact Ha. }
    assert (Hlb : 2 ^ lb <= Z.pos b) by (apply Z.log2_spec; lia).
    assert (Hla0 : 0 <= la) by apply Z.log2_nonneg.
    assert (Hlb0 : 0 <= lb) by apply Z.log2_nonneg.
    rewrite (Qmake_Qdiv a b).
    apply Qlt_shift_div_r; [reflexivity|].
    assert (E : (pow2 (la - lb + 1) * pow2 lb == pow2 (la + 1))%Q).
    { rewrite <- pow2_plus. replace (la - lb + 1 + lb) with (la + 1) by lia. reflexivity. }
    rewrite (pow2_Z (la + 1)) in E by lia. rewrite (pow2_Z lb Hlb0) in E.
    apply Qlt_le_trans with (inject_Z (2 ^ (la + 1))).
    + rewrite <- Zlt_Qlt. exact Hla.
    + rewrite <- E. apply Qmult_le_l; [apply pow2_pos|]. rewrite <- Zle_Qle. exact Hlb.
  - replace (Z.log2 (Qnum q) - Z.log2 (Z.pos (Qden q)) - 1 + 1)
      with (Z.log2 (Qnum q) - Z.log2 (Z.pos (Qden q))) by lia.
    apply Qnot_le_lt. intros H. apply Qle_bool_iff in H. congruence.
Qed.



Lemma round_half_even_nonneg (y : Q) : (0 <= y)%Q -> 0 <= round_half_even y.
Proof.
  intros Hy. unfold round_half_even.
  assert (Hf : 0 <= Qfloor y) by (change 0 with (Qfloor 0); apply Qfloor_resp_le, Hy).
  destruct (y - inject_Z (Qfloor y) ?= 1 # 2)%Q; [destruct (Z.even (Qfloor y))| |]; lia.
Qed.

Lemma b64_pos_nonneg q : (0 < q)%Q -> (0 <= b64_pos q)%Q.
Proof.
  intros Hq. unfold b64_pos.
  pose proof (pow2_pos (Z.max (ilog2 q) (-1022) - 52)) as Hu.
  apply Qmult_le_0_compat; [|apply Qlt_le_weak, Hu].
  change 0%Q with (inject_Z 0). rewrite <- Zle_Qle.
  apply round_half_even_nonneg. apply Qlt_le_weak, Qlt_shift_div_l; [exact Hu|].
  rewrite Qmult_0_l. exact Hq.
Qed.

Lemma b64_cases q :
  (0 <= q)%Q -> (q == 0 /\ b64 q = 0)%Q \/ ((0 < Qred q)%Q /\ b64 q = b64_pos (Qred q)).
Proof.
  intros Hq. unfold b64. pose proof (Qred_correct q) as Hr.
  destruct (Qcompare_spec (Qred q) 0) as [E | L | G].
  - left. split; [lra | reflexivity].
  - exfalso. lra.
  - right. split; [exact G | reflexivity].
Qed.


Lemma b64_nonneg q : (0 <= q)%Q -> (0 <= b64 q)%Q.
Proof.
  intros Hq. destruct (b64_cases q Hq) as [[E ->] | [G ->]].
  - apply Qle_refl.
  - apply b64_pos_nonneg, G.
Qed.



Lemma health_check_run (w : World) :
  run health_check w =
    (tick w,
     {| status := if truthy (classifier w) then "healthy" else "unhealthy";
        service := "sentiment";
        model := MODEL_NAME;
        uptime_seconds := to_int (wall_clock w (ticks w) - start_time w)%Q;
        total_requests := request_count w;
        avg_latency_ms := round2 (avg_latency w) |}).
Proof. reflexivity. Qed.

Lemma get_metrics_run (w : World) :
  run get_metrics w =
    (tick w,
     {| sentiment_service_uptime_seconds :=
          to_int (wall_clock w (ticks w) - start_time w)%Q;
        sentiment_service_requests_total := request_count w;
        sentiment_service_latency_avg_ms := round2 (avg_latency w);
        sentiment_service_latency_total_ms := total_latency_ms w;
        sentiment_service_model := MODEL_NAME;
        sentiment_service_status := if truthy (classifier w) then 1 else 0 |}).
Proof. reflexivity. Qed.


(** The model on sample quotients: 1/10 gives the binary64 number written
    0.1; the counters (200, 1), (200, 3), (40, 1) and (40, 107) give the
    floats written 0.01, 0.01, 0.03 and 2.67; 1/8 and 3/8 give 0.12 and
    0.38. *)
Example round2_samples :
  (b64 (1 # 10) == 3602879701896397 # 36028797018963968)%Q /\
  round2 (b64 (1 # 200)) = b64 (1 # 100) /\
  round2 (b64 (3 # 200)) = b64 (1 # 100) /\
  round2 (b64 (1 # 40)) = b64 (3 # 100) /\
  round2 (b64 (107 # 40)) = b64 (267 # 100) /\
  round2 (b64 (1 # 8)) = b64 (12 # 100) /\
  round2 (b64 (3 # 8)) = b64 (38 # 100) /\
  (b64 (1 # 100) == 5764607523034235 # 576460752303423488)%Q.
Proof. vm_compute. repeat split. Qed.




(** ** Batch responses *)

Lemma batch_items_length lat texts rs :
  List.length (batch_items lat texts rs) = Nat.min (List.length texts) (List.length rs).
Proof. unfold batch_items. rewrite length_map. apply length_combine. Qed.

Lemma batch_items_nth lat texts : forall rs i text r,
  nth_error texts i = Some text ->
  nth_error rs i = Some r ->
  nth_error (batch_items lat texts rs) i = Some (batch_item lat text r).
Proof.
  induction texts as [|t texts IH]; intros rs i text r Ht Hr.
  - destruct i; discriminate Ht.
  - destruct rs as [|r0 rs]; [destruct i; discriminate Hr|].
    destruct i as [|i]; simpl in *.
    + inversion Ht; inversion Hr; subst. reflexivity.
    + apply IH; assumption.
Qed.

Lemma batch_items_latency lat texts rs :
  Forall (fun it => item_latency_ms it = lat) (batch_items lat texts rs).
Proof.
  unfold batch_items. apply Forall_forall. intros it Hin.
  apply in_map_iff in Hin. destruct Hin as [[t r] [Heq _]]. subst it. reflexivity.
Qed.

Lemma sample_pipe_one_result_per_text : one_result_per_text Sample.pipe.
Proof.
  intros texts rs H. simpl in H. inversion H. apply length_map.
Qed.

Lemma sample_pipe_scores : scores_in_unit_interval Sample.pipe.
Proof.
  assert (Hc : forall t, (0 <= raw_score (Sample.classify t)
                          /\ raw_score (Sample.classify t) <= 1)%Q).
  { intros t. unfold Sample.classify.
    destruct t as [|c t]; [split; discriminate|].
    destruct (Ascii.ascii_dec c "S") as [->|Hne].
    - split; discriminate.
    - destruct c as [[] [] [] [] [] [] [] []]; try (split; discriminate). }
  intros x rs H. destruct x as [t|ts]; simpl in H; inversion H; subst.
  - constructor; [apply Hc | constructor].
  - apply Forall_forall. intros r Hin. apply in_map_iff in Hin.
    destruct Hin as [t [<- _]]. apply Hc.
Qed.

(** C4: a batch call that answers 200 on N texts, with a capability that
    returns one result per text, reports [count = N], carries N results, and
    the i-th result is built from the i-th text and the i-th output of the
    capability. *)
Theorem batch_count_length_order request w w' resp :
  (forall cls, classifier w = Some cls -> one_result_per_text cls) ->
  run (analyze_batch request) w = (w', OK200 resp) ->
  let texts := req_texts request in
  let N := List.length texts in
  (1 <= N)%nat /\
  count resp = Z.of_nat N /\
  List.length (results resp) = N /\
  exists cls rs,
    classifier w = Some cls /\
    pipe_call cls (ManyTexts texts) = Returned rs /\
    forall i, (i < N)%nat ->
      exists text r item,
        nth_error texts i = Some text /\
        nth_error rs i = Some r /\
        nth_error (results resp) i = Some item /\
        item_text item = text /\
        item_label item = raw_label r /\
        item_score item = raw_score r /\
        item_sentiment item = lower (raw_label r).
Proof.
  intros Hcap Hrun. cbv zeta.
  destruct (analyze_batch_ok_inv _ _ _ _ Hrun) as (cls & rs & Hc & Hp & Hn & _ & ->).
  cbv zeta in *. cbn [count results].
  pose proof (Hcap cls Hc _ _ Hp) as Hlen.
  split; [lia|]. split; [reflexivity|].
  split; [rewrite batch_items_length, Hlen; apply Nat.min_id|].
  exists cls, rs. split; [exact Hc|]. split; [exact Hp|].
  intros i Hi.
  destruct (nth_error (req_texts request) i) as [text|] eqn:Ht;
    [|apply nth_error_None in Ht; lia].
  destruct (nth_error rs i) as [r|] eqn:Hr;
    [|apply nth_error_None in Hr; lia].
  exists text, r, (batch_item (elapsed_ms (wall_clock w (ticks w))
                                          (wall_clock w (S (ticks w)))
                               / Z.of_nat (List.length (req_texts request))) text r).
  repeat split; auto.
  apply batch_items_nth; assumption.
Qed.

Lemma batch_count_length_order_witness :
  let request := mkBatchSentimentRequest Sample.texts3 in
  let out := run (analyze_batch request) Sample.ready in
  exists resp,
    snd out = OK200 resp /\
    count resp = 3 /\ List.length (results resp) = 3%nat.
Proof.
  cbv zeta. eexists. split; [reflexivity|].
  assert (Hcap : forall cls, classifier Sample.ready = Some cls -> one_result_per_text cls).
  { intros cls H. simpl in H. inversion H. apply sample_pipe_one_result_per_text. }
  destruct (batch_count_length_order (mkBatchSentimentRequest Sample.texts3)
              Sample.ready _ _ Hcap eq_refl) as (_ & Hcount & Hlen & _).
  split; [exact Hcount | exact Hlen].
Defined.

Lemma batch_items_latencies lat texts : forall rs,
  List.length rs = List.length texts ->
  map item_latency_ms (batch_items lat texts rs) = repeat lat (List.length texts).
Proof.
  induction texts as [|t texts IH]; intros [|r rs] Hlen; simpl in *;
    try discriminate; [reflexivity|].
  f_equal. apply IH. lia.
Qed.

(** C5: in a batch call that answers 200 on N texts, with a capability that
    returns one result per text, the results are N entries and each of them
    carries the same [latency_ms], the total batch latency divided by N with
    floor division: the list of their latencies is N copies of that
    value. *)
Theorem batch_per_text_latency request w w' resp :
  (forall cls, classifier w = Some cls -> one_result_per_text cls) ->
  run (analyze_batch request) w = (w', OK200 resp) ->
  let n := List.length (req_texts request) in
  let N := Z.of_nat n in
  0 < N /\
  batch_total_latency_ms resp
    = elapsed_ms (wall_clock w (ticks w)) (wall_clock w (S (ticks w))) /\
  List.length (results resp) = n /\
  map item_latency_ms (results resp) = repeat (batch_total_latency_ms resp / N) n /\
  Forall (fun it => item_latency_ms it = batch_total_latency_ms resp / N)
         (results resp).
Proof.
  intros Hcap Hrun. cbv zeta.
  destruct (analyze_batch_ok_inv _ _ _ _ Hrun) as (cls & rs & Hc & Hp & Hn & _ & ->).
  cbv zeta in *. cbn [batch_total_latency_ms results].
  pose proof (Hcap cls Hc _ _ Hp) as Hlen.
  split; [lia|]. split; [reflexivity|].
  split; [rewrite batch_items_length, Hlen; apply Nat.min_id|].
  split; [apply batch_items_latencies, Hlen|].
  apply batch_items_latency.
Qed.

Lemma batch_per_text_latency_witness :
  let request := mkBatchSentimentRequest Sample.texts3 in
  let out := run (analyze_batch request) Sample.ready in
  exists resp,
    snd out = OK200 resp /\
    batch_total_latency_ms resp = 7 /\
    map item_latency_ms (results resp) = [2; 2; 2].
Proof.
  cbv zeta. eexists. split; [reflexivity|].
  assert (Hcap : forall cls, classifier Sample.ready = Some cls -> one_result_per_text cls).
  { intros cls H. simpl in H. inversion H. apply sample_pipe_one_result_per_text. }
  destruct (batch_per_text_latency (mkBatchSentimentRequest Sample.texts3)
              Sample.ready _ _ Hcap eq_refl) as (_ & Htot & _ & Hall & _).
  split; [exact Htot | exact Hall].
Defined.



(** ** Error responses *)

(** C7: for a single and for a batch call alike, a missing model gives 503
    and a classification that raises gives 500 with the failure message; in
    both cases the two counters keep their values. *)
Theorem errors_leave_counters_unchanged (w : World)
  (single : SentimentRequest) (batch : BatchSentimentRequest) :
  (classifier w = None ->
   run (analyze_sentiment single) w = (w, HTTPException 503 "Model not loaded") /\
   run (analyze_batch batch) w = (w, HTTPException 503 "Model not loaded")) /\
  (forall cls msg,
     classifier w = Some cls ->
     pipe_call cls (OneText (req_text single)) = Raised msg ->
     let out := run (analyze_sentiment single) w in
     snd out = HTTPException 500 msg /\
     request_count (fst out) = request_count w /\
     total_latency_ms (fst out) = total_latency_ms w) /\
  (forall cls msg,
     classifier w = Some cls ->
     pipe_call cls (ManyTexts (req_texts batch)) = Raised msg ->
     let out := run (analyze_batch batch) w in
     snd out = HTTPException 500 msg /\
     request_count (fst out) = request_count w /\
     total_latency_ms (fst out) = total_latency_ms w).
Proof.
  split; [|split].
  - intros Hc. split.
    + apply analyze_sentiment_not_ready, Hc.
    + apply analyze_batch_not_ready, Hc.
  - intros cls msg Hc Hp. cbv zeta.
    rewrite (analyze_sentiment_raised _ _ _ _ Hc Hp). repeat split.
  - intros cls msg Hc Hp. cbv zeta.
    rewrite (analyze_batch_raised _ _ _ _ Hc Hp). repeat split.
Qed.

Lemma errors_leave_counters_unchanged_witness :
  let loading := initial_world Sample.clock in
  let failing := mkWorld (Some Sample.broken_pipe) 0 5 40 Sample.clock 1%nat [] in
  let single := mkSentimentRequest "The room was absolutely wonderful!" None in
  let batch := mkBatchSentimentRequest Sample.texts3 in
  snd (run (analyze_sentiment single) loading) = HTTPException 503 "Model not loaded" /\
  snd (run (analyze_batch batch) loading) = HTTPException 503 "Model not loaded" /\
  snd (run (analyze_sentiment single) failing) = HTTPException 500 "CUDA error" /\
  request_count (fst (run (analyze_sentiment single) failing)) = 5 /\
  snd (run (analyze_batch batch) failing) = HTTPException 500 "CUDA error" /\
  total_latency_ms (fst (run (analyze_batch batch) failing)) = 40.
Proof.
  cbv zeta.
  destruct (errors_leave_counters_unchanged (initial_world Sample.clock)
              (mkSentimentRequest "The room was absolutely wonderful!" None)
              (mkBatchSentimentRequest Sample.texts3)) as (Hnot & _ & _).
  destruct (Hnot eq_refl) as (Hs & Hb).
  destruct (errors_leave_counters_unchanged
              (mkWorld (Some Sample.broken_pipe) 0 5 40 Sample.clock 1%nat [])
              (mkSentimentRequest "The room was absolutely wonderful!" None)
              (mkBatchSentimentRequest Sample.texts3)) as (_ & Hone & Hmany).
  destruct (Hone Sample.broken_pipe "CUDA error"%string eq_refl eq_refl) as (H1 & H2 & _).
  destruct (Hmany Sample.broken_pipe "CUDA error"%string eq_refl eq_refl) as (H3 & _ & H4).
  split; [rewrite Hs; reflexivity|].
  split; [rewrite Hb; reflexivity|].
  split; [exact H1|]. split; [exact H2|]. split; [exact H3 | exact H4].
Defined.

(** ** Validation *)

Lemma SentimentRequest_valid_iff r :
  SentimentRequest_valid r = true <->
  (1 <= String.length (req_text r) <= 5000)%nat.
Proof.
  unfold SentimentRequest_valid. rewrite andb_true_iff, !Nat.leb_le. tauto.
Qed.

Lemma BatchSentimentRequest_valid_iff r :
  BatchSentimentRequest_valid r = true <->
  (1 <= List.length (req_texts r) <= 100)%nat.
Proof.
  unfold BatchSentimentRequest_valid. rewrite andb_true_iff, !Nat.leb_le. tauto.
Qed.

Lemma chars_length n : String.length (Sample.chars n) = n.
Proof. induction n as [|n IH]; simpl; congruence. Qed.

(** C8: a text is accepted exactly when its length is between 1 and 5000
    and a batch exactly when it has between 1 and 100 texts; a rejected
    request is answered 422 without the handler being entered; so lengths 0
    and 5001 and sizes 0 and 101 are rejected, and length 5000 and size 100
    reach the handler. *)
Theorem validation_boundaries :
  (forall r, SentimentRequest_valid r = true <->
             (1 <= String.length (req_text r) <= 5000)%nat) /\
  (forall r, BatchSentimentRequest_valid r = true <->
             (1 <= List.length (req_texts r) <= 100)%nat) /\
  (forall c t w,
     let text n := mkSentimentRequest (Sample.chars n) c in
     let texts n := mkBatchSentimentRequest (repeat t n) in
     run (post_analyze (text 0%nat)) w = (w, HTTPException 422 "Unprocessable Entity") /\
     post_analyze (text 5000%nat) = analyze_sentiment (text 5000%nat) /\
     run (post_analyze (text 5001%nat)) w = (w, HTTPException 422 "Unprocessable Entity") /\
     run (post_analyze_batch (texts 0%nat)) w = (w, HTTPException 422 "Unprocessable Entity") /\
     post_analyze_batch (texts 100%nat) = analyze_batch (texts 100%nat) /\
     run (post_analyze_batch (texts 101%nat)) w = (w, HTTPException 422 "Unprocessable Entity")).
Proof.
  split; [exact SentimentRequest_valid_iff|].
  split; [exact BatchSentimentRequest_valid_iff|].
  intros c t w. cbv zeta.
  unfold post_analyze, post_analyze_batch,
    SentimentRequest_valid, BatchSentimentRequest_valid.
  cbn [req_text req_texts].
  rewrite !chars_length, !repeat_length.
  repeat split.
Qed.

(** ** Single responses *)

Lemma lower_ascii_idempotent c : lower_ascii (lower_ascii c) = lower_ascii c.
Proof. destruct c as [[] [] [] [] [] [] [] []]; reflexivity. Qed.

Lemma lower_idempotent s : lower (lower s) = lower s.
Proof.
  induction s as [|c s IH]; simpl; [reflexivity|].
  rewrite lower_ascii_idempotent, IH. reflexivity.
Qed.

(** C9: a single call that answers 200, with a capability whose scores lie
    in [0,1], returns a score in [0,1], and its [sentiment] is the
    lower-cased form of the raw [label] it carries (lower-casing it again
    changes nothing). *)
Theorem single_score_and_label request w w' resp :
  (forall cls, classifier w = Some cls -> scores_in_unit_interval cls) ->
  run (analyze_sentiment request) w = (w', OK200 resp) ->
  (0 <= score resp)%Q /\ (score resp <= 1)%Q /\
  sentiment resp = lower (label resp) /\
  lower (sentiment resp) = sentiment resp.
Proof.
  intros Hcap Hrun.
  destruct (analyze_sentiment_ok_inv _ _ _ _ Hrun)
    as (cls & result & rest & Hc & Hp & _ & ->).
  cbv zeta in *. cbn [score sentiment label].
  pose proof (Hcap cls Hc _ _ Hp) as Hall.
  inversion Hall as [|? ? [Hlo Hhi] _]; subst.
  repeat split; auto using lower_idempotent.
Qed.

Lemma single_score_and_label_witness :
  let request := mkSentimentRequest "The room was absolutely wonderful!" (Some "guest_review"%string) in
  exists resp,
    snd (run (analyze_sentiment request) Sample.ready) = OK200 resp /\
    (0 <= score resp)%Q /\ (score resp <= 1)%Q /\
    sentiment resp = "positive"%string /\ label resp = "POSITIVE"%string.
Proof.
  cbv zeta. eexists. split; [reflexivity|].
  assert (Hcap : forall cls, classifier Sample.ready = Some cls ->
                             scores_in_unit_interval cls).
  { intros cls H. simpl in H. inversion H. apply sample_pipe_scores. }
  destruct (single_score_and_label
              (mkSentimentRequest "The room was absolutely wonderful!"
                                  (Some "guest_review"%string))
              Sample.ready _ _ Hcap eq_refl) as (Hlo & Hhi & _ & _).
  split; [exact Hlo|]. split; [exact Hhi|]. split; reflexivity.
Defined.

(** ** Batch validation looks at the size only *)

(** The 200 path of the batch handler, forwards. *)
Lemma analyze_batch_ok request w cls rs :
  classifier w = Some cls ->
  pipe_call cls (ManyTexts (req_texts request)) = Returned rs ->
  req_texts request <> [] ->
  let texts := req_texts request in
  let n := Z.of_nat (List.length texts) in
  let total := elapsed_ms (wall_clock w (ticks w)) (wall_clock w (S (ticks w))) in
  run (analyze_batch request) w =
    (tick (after_inference (ManyTexts texts) n w),
     OK200 {| results := batch_items (total / n) texts rs;
              batch_source := "greengrass-edge";
              batch_total_latency_ms := total;
              count := n;
              batch_timestamp := wall_clock w (S (S (ticks w))) |}).
Proof.
  intros Hc Hp Hne. cbv zeta. unfold analyze_batch. cbn. rewrite Hc. cbn. rewrite Hp. cbn.
  destruct (Z.of_nat (List.length (req_texts request)) =? 0) eqn:Hn.
  - apply Z.eqb_eq in Hn. destruct (req_texts request); [congruence | simpl in Hn; lia].
  - reflexivity.
Qed.

(** The 200 path of the single handler, forwards. *)
Lemma analyze_sentiment_ok request w cls result rest :
  classifier w = Some cls ->
  pipe_call cls (OneText (req_text request)) = Returned (result :: rest) ->
  let x := OneText (req_text request) in
  let lat := elapsed_ms (wall_clock w (ticks w)) (wall_clock w (S (ticks w))) in
  run (analyze_sentiment request) w =
    (tick (after_inference x 1 w),
     OK200 {| sentiment := lower (raw_label result);
              score := raw_score result;
              label := raw_label result;
              source := "greengrass-edge";
              latency_ms := lat;
              context := req_context request;
              timestamp := wall_clock w (S (S (ticks w))) |}).
Proof.
  intros Hc Hp. cbv zeta. unfold analyze_sentiment. cbn. rewrite Hc. cbn. rewrite Hp.
  reflexivity.
Qed.

Lemma batch_items_texts lat texts : forall rs,
  List.length rs = List.length texts ->
  map item_text (batch_items lat texts rs) = texts.
Proof.
  induction texts as [|t texts IH]; intros [|r rs] Hlen; simpl in *;
    try discriminate; [reflexivity|].
  f_equal. apply IH. lia.
Qed.

(** C10: whether a batch is accepted depends on the number of texts alone;
    an accepted batch is handed to the capability as it is, whatever the
    lengths of its texts; so a batch holding an empty text and a text of
    5001 characters is accepted and classified, while each of these texts is
    rejected as a single request. *)
Theorem batch_validation_ignores_text_length :
  (forall r r',
     List.length (req_texts r) = List.length (req_texts r') ->
     BatchSentimentRequest_valid r = BatchSentimentRequest_valid r') /\
  (forall w cls r rs,
     (1 <= List.length (req_texts r) <= 100)%nat ->
     classifier w = Some cls ->
     pipe_call cls (ManyTexts (req_texts r)) = Returned rs ->
     List.length rs = List.length (req_texts r) ->
     exists w' resp,
       run (post_analyze_batch r) w = (w', OK200 resp) /\
       pipeline_calls w' = pipeline_calls w ++ [ManyTexts (req_texts r)] /\
       map item_text (results resp) = req_texts r) /\
  (let long := Sample.chars 5001 in
   SentimentRequest_valid (mkSentimentRequest "" None) = false /\
   SentimentRequest_valid (mkSentimentRequest long None) = false /\
   BatchSentimentRequest_valid (mkBatchSentimentRequest [""%string; long]) = true).
Proof.
  split; [|split].
  - intros r r' Hlen. unfold BatchSentimentRequest_valid. rewrite Hlen. reflexivity.
  - intros w cls r rs Hsize Hc Hp Hlen.
    unfold post_analyze_batch.
    rewrite (proj2 (BatchSentimentRequest_valid_iff r) Hsize).
    assert (Hne : req_texts r <> []).
    { intros E. rewrite E in Hsize. simpl in Hsize. lia. }
    rewrite (analyze_batch_ok r w cls rs Hc Hp Hne).
    eexists. eexists. split; [reflexivity|].
    split; [reflexivity|].
    cbn [results]. apply batch_items_texts, Hlen.
  - cbv zeta. unfold SentimentRequest_valid, BatchSentimentRequest_valid.
    cbn [req_text req_texts]. rewrite chars_length. repeat split.
Qed.

Lemma batch_validation_ignores_text_length_witness :
  let texts := [""%string; Sample.chars 5001] in
  exists w' resp,
    run (post_analyze_batch (mkBatchSentimentRequest texts)) Sample.ready
      = (w', OK200 resp) /\
    pipeline_calls w' = [ManyTexts texts] /\
    map item_text (results resp) = texts.
Proof.
  cbv zeta.
  destruct batch_validation_ignores_text_length as (_ & Hacc & _).
  apply (Hacc Sample.ready Sample.pipe
              (mkBatchSentimentRequest [""%string; Sample.chars 5001])
              (map Sample.classify [""%string; Sample.chars 5001])).
  - simpl. lia.
  - reflexivity.
  - reflexivity.
  - reflexivity.
Defined.

(** ** Model lifecycle *)

Lemma analyze_sentiment_classifier r w :
  classifier (fst (run (analyze_sentiment r) w)) = classifier w.
Proof.
  unfold analyze_sentiment. cbn.
  destruct (classifier w) as [cls|] eqn:Hc; cbn; [|exact Hc].
  destruct (pipe_call cls (OneText (req_text r))) as [[|result rest]|msg]; cbn; exact Hc.
Qed.

Lemma analyze_batch_classifier r w :
  classifier (fst (run (analyze_batch r) w)) = classifier w.
Proof.
  unfold analyze_batch. cbn.
  destruct (classifier w) as [cls|] eqn:Hc; cbn; [|exact Hc].
  destruct (pipe_call cls (ManyTexts (req_texts r))) as [rs|msg]; cbn; [|exact Hc].
  destruct (Z.of_nat (List.length (req_texts r)) =? 0); cbn; exact Hc.
Qed.

(** No request handler assigns [classifier]. *)
Lemma serve_classifier q w : classifier (fst (run (serve q) w)) = classifier w.
Proof.
  destruct q as [r | r | | ]; unfold serve;
    change (@bind coro Monad_coro) with (@coro_bind); rewrite run_bind; cbn [run fst].
  - unfold post_analyze. destruct (SentimentRequest_valid r); cbn [run fst].
    + apply analyze_sentiment_classifier.
    + reflexivity.
  - unfold post_analyze_batch. destruct (BatchSentimentRequest_valid r); cbn [run fst].
    + apply analyze_batch_classifier.
    + reflexivity.
  - reflexivity.
  - reflexivity.
Qed.

Lemma serve_all_classifier qs : forall w, classifier (serve_all qs w) = classifier w.
Proof.
  induction qs as [|q qs IH]; intros w; simpl; [reflexivity|].
  unfold serve_all in IH. rewrite IH. apply serve_classifier.
Qed.

Lemma health_status_classifier w :
  health_status w = if truthy (classifier w) then "healthy"%string else "unhealthy"%string.
Proof. reflexivity. Qed.

(** A startup whose load succeeds: the global is assigned, then the warm-up
    inference decides the outcome. *)
Lemma startup_event_loaded p w :
  run (startup_event (Returned p)) w =
    (log_call (OneText warmup_text) (tick (set_classifier p (tick w))),
     match pipe_call p (OneText warmup_text) with
     | Returned _ => Returned tt
     | Raised msg => Raised msg
     end).
Proof.
  unfold startup_event. cbn.
  destruct (pipe_call p (OneText warmup_text)); reflexivity.
Qed.

(** After a startup in which load and warm-up succeed the status is healthy,
    and stays so. *)
Lemma health_after_startup clock p rs qs :
  pipe_call p (OneText warmup_text) = Returned rs ->
  let out := run (startup_event (Returned p)) (initial_world clock) in
  snd out = Returned tt /\
  health_status (serve_all qs (fst out)) = "healthy"%string.
Proof.
  intros Hp. cbv zeta. rewrite startup_event_loaded, Hp. cbn [fst snd].
  split; [reflexivity|].
  rewrite health_status_classifier, serve_all_classifier. reflexivity.
Qed.






(** ** Counter updates under interleaving *)

(** What serving one request does to the counters, and what a reader
    returns. *)
Lemma serve_effect q w :
  let out := run (serve q) w in
  request_count (fst out) = request_count w + fst (recorded (snd out)) /\
  total_latency_ms (fst out) = total_latency_ms w + snd (recorded (snd out)) /\
  match snd out with
  | HealthReply h => h = snd (run health_check w)
  | MetricsReply m => m = snd (run get_metrics w)
  | _ => True
  end.
Proof.
  cbv zeta.
  destruct q as [r | r | | ]; unfold serve;
    change (@bind coro Monad_coro) with (@coro_bind); rewrite run_bind; cbn [run fst snd].
  - unfold post_analyze. destruct (SentimentRequest_valid r); cbn [run fst snd];
      [|cbn; repeat split; lia].
    unfold analyze_sentiment. cbn.
    destruct (classifier w) as [cls|]; cbn; [|repeat split; lia].
    destruct (pipe_call cls (OneText (req_text r))) as [[|result rest]|msg]; cbn;
      repeat split; lia.
  - unfold post_analyze_batch.
    destruct (BatchSentimentRequest_valid r) eqn:Hv; cbn [run fst snd];
      [|cbn; repeat split; lia].
    apply BatchSentimentRequest_valid_iff in Hv.
    unfold analyze_batch. cbn.
    destruct (classifier w) as [cls|]; cbn; [|repeat split; lia].
    destruct (pipe_call cls (ManyTexts (req_texts r))) as [rs|msg]; cbn;
      [|repeat split; lia].
    destruct (Z.of_nat (List.length (req_texts r)) =? 0) eqn:Hn; cbn.
    + apply Z.eqb_eq in Hn. lia.
    + repeat split; lia.
  - cbn. repeat split; lia.
  - cbn. repeat split; lia.
Qed.

Lemma recorded_replace_nth ts : forall i c r,
  nth_error ts i = Some (Pending c) ->
  recorded_count (replace_nth i (Finished r) ts) = recorded_count ts + fst (recorded r) /\
  recorded_latency (replace_nth i (Finished r) ts) = recorded_latency ts + snd (recorded r).
Proof.
  induction ts as [|t ts IH]; intros i c r Hi.
  - destruct i; discriminate Hi.
  - destruct i as [|i]; simpl in Hi.
    + inversion Hi; subst. simpl. split; lia.
    + destruct (IH i c r Hi) as [Hc Hl].
      simpl. unfold recorded_count, recorded_latency in *. split; lia.
Qed.

Lemma Forall_replace_nth {A : Type} (P : A -> Prop) (x : A) (l : list A) : forall i,
  Forall P l -> P x -> Forall P (replace_nth i x l).
Proof.
  induction l as [|y l IH]; intros i Hl Hx; simpl; [constructor|].
  inversion Hl; subst. destruct i; constructor; auto.
Qed.

Lemma earlier_refl ts : earlier ts ts.
Proof. induction ts; constructor; auto. Qed.

Lemma earlier_replace_nth done ts : earlier done ts -> forall i c x,
  nth_error ts i = Some (Pending c) ->
  earlier done (replace_nth i x ts).
Proof.
  induction 1 as [|d t done ts Hdt Hrest IH]; intros i c x Hi.
  - constructor.
  - destruct i as [|i]; simpl in *.
    + inversion Hi; subst. constructor; [|exact Hrest].
      right. destruct Hdt as [-> | Hp]; [eexists; reflexivity | exact Hp].
    + constructor; [exact Hdt | eapply IH; eassumption].
Qed.

Lemma consistent_read_later w0 ts ts' t :
  (forall done, earlier done ts -> earlier done ts') ->
  consistent_read w0 ts t -> consistent_read w0 ts' t.
Proof.
  intros Hmono. destruct t as [c|[r|r|h|m]]; simpl; auto.
  - intros (done & w & He & Hc & Hr). exists done, w. auto.
  - intros (done & w & He & Hc & Hr). exists done, w. auto.
Qed.

Lemma unstarted_replace_nth qs ts : unstarted_or_finished qs ts -> forall i r,
  unstarted_or_finished qs (replace_nth i (Finished r) ts).
Proof.
  induction 1 as [|q t qs ts Hqt Hrest IH]; intros i r; simpl.
  - constructor.
  - destruct i as [|i].
    + constructor; [right; eexists; reflexivity | exact Hrest].
    + constructor; [exact Hqt | apply IH].
Qed.

Lemma unstarted_nth qs ts : unstarted_or_finished qs ts -> forall i c,
  nth_error ts i = Some (Pending c) -> exists q, c = serve q.
Proof.
  induction 1 as [|q t qs ts Hqt Hrest IH]; intros i c Hi.
  - destruct i; discriminate Hi.
  - destruct i as [|i]; simpl in Hi.
    + inversion Hi; subst. destruct Hqt as [E | [r E]]; [|discriminate E].
      inversion E. exists q. reflexivity.
    + eapply IH; eassumption.
Qed.

Lemma loop_invariant_spawn w0 qs : loop_invariant w0 qs (mkEventLoop w0 (spawn qs)).
Proof.
  unfold loop_invariant, counters_of, spawn. cbn [world tasks].
  assert (Hzero : recorded_count (map (fun q => Pending (serve q)) qs) = 0 /\
                  recorded_latency (map (fun q => Pending (serve q)) qs) = 0).
  { induction qs as [|q qs [IHc IHl]]; simpl; split; auto;
      unfold recorded_count, recorded_latency in *; simpl; lia. }
  destruct Hzero as [-> ->].
  split; [split; lia|]. split.
  - induction qs; simpl; constructor; auto.
  - apply Forall_forall. intros t Hin. apply in_map_iff in Hin.
    destruct Hin as [q [<- _]]. exact I.
Qed.

Lemma loop_invariant_turn w0 qs l i :
  loop_invariant w0 qs l -> loop_invariant w0 qs (turn l i).
Proof.
  intros (Hcnt & Hun & Hread). unfold turn.
  destruct (nth_error (tasks l) i) as [[c|r]|] eqn:Hi;
    try (split; [|split]; assumption).
  destruct (unstarted_nth _ _ Hun _ _ Hi) as [q ->].
  rewrite (run_segment_no_await _ (serve_no_await q)).
  destruct (serve_effect q (world l)) as (Hrc & Htl & Hrep).
  destruct (recorded_replace_nth _ _ _ (snd (run (serve q) (world l))) Hi) as [Hc' Hl'].
  destruct Hcnt as [Hc0 Hl0].
  unfold loop_invariant, counters_of. cbn [world tasks].
  split; [split; lia|].
  split; [apply unstarted_replace_nth, Hun|].
  apply Forall_replace_nth.
  - eapply Forall_impl; [|exact Hread].
    intros t. apply consistent_read_later.
    intros done Hd. eapply earlier_replace_nth; eassumption.
  - destruct (snd (run (serve q) (world l))) as [r|r|h|m]; simpl; auto.
    + exists (tasks l), (world l). split; [|split; [split; assumption | exact Hrep]].
      eapply earlier_replace_nth; [apply earlier_refl | exact Hi].
    + exists (tasks l), (world l). split; [|split; [split; assumption | exact Hrep]].
      eapply earlier_replace_nth; [apply earlier_refl | exact Hi].
Qed.

Lemma loop_invariant_schedule w0 qs sched : forall l,
  loop_invariant w0 qs l -> loop_invariant w0 qs (run_schedule sched l).
Proof.
  induction sched as [|i sched IH]; intros l Hl; simpl; [exact Hl|].
  apply IH, loop_invariant_turn, Hl.
Qed.

(** C2: however the loop interleaves the requests it has received, (1) the
    two counters are the initial ones plus the count and the latency of
    every reply produced so far, so no update is lost; (2) no handler is
    ever suspended part way, in particular not between its two additions;
    (3) every health or metrics reply was computed in a world whose two
    counters come from one and the same set of completed updates. *)
Theorem metrics_updates_atomic (w0 : World) (qs : list Request) (sched : list nat) :
  let l := run_schedule sched (mkEventLoop w0 (spawn qs)) in
  request_count (world l) = request_count w0 + recorded_count (tasks l) /\
  total_latency_ms (world l) = total_latency_ms w0 + recorded_latency (tasks l) /\
  unstarted_or_finished qs (tasks l) /\
  Forall (consistent_read w0 (tasks l)) (tasks l).
Proof.
  cbv zeta.
  destruct (loop_invariant_schedule w0 qs sched _ (loop_invariant_spawn w0 qs))
    as ((Hc & Hl) & Hun & Hread).
  auto.
Qed.

(** A run of the loop on four requests, the batch first, then the metrics
    query, the single analysis and the health query. *)
Example interleaving_sample :
  let qs := [POST_analyze (mkSentimentRequest "The room was absolutely wonderful!" None);
             GET_metrics;
             POST_analyze_batch (mkBatchSentimentRequest Sample.texts3);
             GET_health] in
  let l := run_schedule [2; 1; 0; 3]%nat (mkEventLoop Sample.ready (spawn qs)) in
  request_count (world l) = 4 /\ total_latency_ms (world l) = 14 /\
  exists a m b h,
    tasks l = [Finished (AnalyzeReply (OK200 a)); Finished (MetricsReply m);
               Finished (BatchReply (OK200 b)); Finished (HealthReply h)] /\
    latency_ms a = 7 /\ count b = 3 /\ batch_total_latency_ms b = 7 /\
    sentiment_service_requests_total m = 3 /\
    sentiment_service_latency_total_ms m = 7 /\
    total_requests h = 4 /\ (avg_latency_ms h == 35 # 10)%Q.
Proof.
  cbv zeta. split; [reflexivity|]. split; [reflexivity|].
  do 4 eexists. split; [reflexivity|]. repeat split.
Qed.

(** The loop model does expose a half-applied update when a handler suspends
    between its two additions: here the metrics query runs while the other
    task is suspended, and sees a request counted with no latency added. *)
Example suspended_update_is_observable :
  let l := run_schedule [0; 1; 0]%nat
             (mkEventLoop Sample.ready
                [Pending (Contrast.record_with_await 1 5); Pending (serve GET_metrics)]) in
  exists m rest,
    tasks l = [rest; Finished (MetricsReply m)] /\
    sentiment_service_requests_total m = 1 /\
    sentiment_service_latency_total_ms m = 0 /\
    request_count (world l) = 1 /\ total_latency_ms (world l) = 5.
Proof.
  cbv zeta. do 2 eexists. split; [reflexivity|]. repeat split.
Qed.

(** * Further properties of the service *)

(** ** Routing *)

Lemma serve_POST_analyze r w :
  run (serve (POST_analyze r)) w =
    if SentimentRequest_valid r
    then (fst (run (analyze_sentiment r) w),
          AnalyzeReply (snd (run (analyze_sentiment r) w)))
    else (w, AnalyzeReply validation_error).
Proof.
  unfold serve. change (@bind coro Monad_coro) with (@coro_bind). rewrite run_bind.
  unfold post_analyze. destruct (SentimentRequest_valid r); reflexivity.
Qed.

Lemma serve_POST_analyze_batch r w :
  run (serve (POST_analyze_batch r)) w =
    if BatchSentimentRequest_valid r
    then (fst (run (analyze_batch r) w),
          BatchReply (snd (run (analyze_batch r) w)))
    else (w, BatchReply validation_error).
Proof.
  unfold serve. change (@bind coro Monad_coro) with (@coro_bind). rewrite run_bind.
  unfold post_analyze_batch. destruct (BatchSentimentRequest_valid r); reflexivity.
Qed.

(** The complete case analysis of one run of the single handler. *)
Lemma analyze_sentiment_cases r w :
  (classifier w = None /\
   run (analyze_sentiment r) w = (w, HTTPException 503 "Model not loaded")) \/
  (exists cls msg,
     classifier w = Some cls /\
     pipe_call cls (OneText (req_text r)) = Raised msg /\
     run (analyze_sentiment r) w =
       (log_call (OneText (req_text r)) (tick w), HTTPException 500 msg)) \/
  (exists cls,
     classifier w = Some cls /\
     pipe_call cls (OneText (req_text r)) = Returned [] /\
     run (analyze_sentiment r) w =
       (log_call (OneText (req_text r)) (tick w),
        HTTPException 500 "list index out of range")) \/
  (exists cls result rest,
     classifier w = Some cls /\
     pipe_call cls (OneText (req_text r)) = Returned (result :: rest) /\
     run (analyze_sentiment r) w =
       (tick (after_inference (OneText (req_text r)) 1 w),
        OK200 {| sentiment := lower (raw_label result);
                 score := raw_score result;
                 label := raw_label result;
                 source := "greengrass-edge";
                 latency_ms := elapsed_ms (wall_clock w (ticks w))
                                          (wall_clock w (S (ticks w)));
                 context := req_context r;
                 timestamp := wall_clock w (S (S (ticks w))) |})).
Proof.
  destruct (classifier w) as [cls|] eqn:Hc.
  - destruct (pipe_call cls (OneText (req_text r))) as [[|result rest]|msg] eqn:Hp.
    + right; right; left. exists cls. split; [reflexivity|]. split; [exact Hp|].
      unfold analyze_sentiment. cbn. rewrite Hc. cbn. rewrite Hp. reflexivity.
    + right; right; right. exists cls, result, rest.
      split; [reflexivity|]. split; [exact Hp|].
      apply (analyze_sentiment_ok r w cls result rest Hc Hp).
    + right; left. exists cls, msg. split; [reflexivity|]. split; [exact Hp|].
      apply (analyze_sentiment_raised r w cls msg Hc Hp).
  - left. split; [reflexivity|]. apply analyze_sentiment_not_ready, Hc.
Qed.

(** The complete case analysis of one run of the batch handler. *)
Lemma analyze_batch_cases r w :
  (classifier w = None /\
   run (analyze_batch r) w = (w, HTTPException 503 "Model not loaded")) \/
  (exists cls msg,
     classifier w = Some cls /\
     pipe_call cls (ManyTexts (req_texts r)) = Raised msg /\
     run (analyze_batch r) w =
       (log_call (ManyTexts (req_texts r)) (tick w), HTTPException 500 msg)) \/
  (exists cls rs,
     classifier w = Some cls /\
     pipe_call cls (ManyTexts (req_texts r)) = Returned rs /\
     req_texts r = [] /\
     run (analyze_batch r) w =
       (after_inference (ManyTexts []) 0 w,
        HTTPException 500 "integer division or modulo by zero")) \/
  (exists cls rs,
     classifier w = Some cls /\
     pipe_call cls (ManyTexts (req_texts r)) = Returned rs /\
     req_texts r <> [] /\
     let n := Z.of_nat (List.length (req_texts r)) in
     let total := elapsed_ms (wall_clock w (ticks w)) (wall_clock w (S (ticks w))) in
     run (analyze_batch r) w =
       (tick (after_inference (ManyTexts (req_texts r)) n w),
        OK200 {| results := batch_items (total / n) (req_texts r) rs;
                 batch_source := "greengrass-edge";
                 batch_total_latency_ms := total;
                 count := n;
                 batch_timestamp := wall_clock w (S (S (ticks w))) |})).
Proof.
  destruct (classifier w) as [cls|] eqn:Hc.
  - destruct (pipe_call cls (ManyTexts (req_texts r))) as [rs|msg] eqn:Hp.
    + assert (Hcase : req_texts r = [] \/ req_texts r <> [])
        by (destruct (req_texts r); [left; reflexivity | right; discriminate]).
      destruct Hcase as [Hempty | Hne].
      * right; right; left. exists cls, rs.
        split; [reflexivity|]. split; [exact Hp|]. split; [exact Hempty|].
        unfold analyze_batch. cbn. rewrite Hc. cbn. rewrite Hp. cbn.
        rewrite Hempty. reflexivity.
      * right; right; right. exists cls, rs.
        split; [reflexivity|]. split; [exact Hp|]. split; [exact Hne|].
        apply (analyze_batch_ok r w cls rs Hc Hp Hne).
    + right; left. exists cls, msg. split; [reflexivity|]. split; [exact Hp|].
      apply (analyze_batch_raised r w cls msg Hc Hp).
  - left. split; [reflexivity|]. apply analyze_batch_not_ready, Hc.
Qed.

(** ** Outcomes of the inference endpoints *)

(** X1: a single analysis answers 503 exactly when no model is loaded, 200
    exactly when the capability returns a non-empty list, and 500 otherwise;
    no other status occurs.  A capability that returns an empty list gives
    500 and leaves the counters as they were. *)
Theorem analyze_sentiment_status r w :
  let out := run (analyze_sentiment r) w in
  (http_status (snd out) = 503 <-> classifier w = None) /\
  (http_status (snd out) = 200 <->
     exists cls result rest,
       classifier w = Some cls /\
       pipe_call cls (OneText (req_text r)) = Returned (result :: rest)) /\
  (http_status (snd out) = 200 \/ http_status (snd out) = 500 \/
   http_status (snd out) = 503) /\
  (forall cls,
     classifier w = Some cls ->
     pipe_call cls (OneText (req_text r)) = Returned [] ->
     http_status (snd out) = 500 /\
     request_count (fst out) = request_count w /\
     total_latency_ms (fst out) = total_latency_ms w).
Proof.
  cbv zeta.
  destruct (analyze_sentiment_cases r w)
    as [[Hc ->] | [(cls & msg & Hc & Hp & ->) | [(cls & Hc & Hp & ->)
       | (cls & result & rest & Hc & Hp & ->)]]]; cbn [fst snd http_status].
  - split; [tauto|]. split; [|split; [auto|]].
    + split; [discriminate|]. intros (c & _ & _ & E & _). congruence.
    + intros c E. congruence.
  - split; [split; [discriminate | congruence]|]. split; [|split; [auto|]].
    + split; [discriminate|]. intros (c & x & y & E1 & E2). congruence.
    + intros c E1 E2. congruence.
  - split; [split; [discriminate | congruence]|]. split; [|split; [auto|]].
    + split; [discriminate|]. intros (c & x & y & E1 & E2). congruence.
    + intros c E1 E2. repeat split.
  - split; [split; [discriminate | congruence]|]. split; [|split; [auto|]].
    + split; [|reflexivity]. intros _. exists cls, result, rest. auto.
    + intros c E1 E2. congruence.
Qed.

Lemma analyze_sentiment_status_witness :
  let empty := mkPipeline (fun _ => Returned []) in
  let w := mkWorld (Some empty) 0 5 40 Sample.clock 1%nat [] in
  let out := run (analyze_sentiment (mkSentimentRequest "ok" None)) w in
  http_status (snd out) = 500 /\ request_count (fst out) = 5 /\
  total_latency_ms (fst out) = 40.
Proof.
  cbv zeta.
  destruct (analyze_sentiment_status (mkSentimentRequest "ok" None)
              (mkWorld (Some (mkPipeline (fun _ => Returned []))) 0 5 40
                       Sample.clock 1%nat [])) as (_ & _ & _ & Hempty).
  apply (Hempty (mkPipeline (fun _ => Returned []))); reflexivity.
Defined.

(** X2: a 200 answer of the single handler means the capability was invoked
    exactly once, on the request's text; [request_count] grew by one and
    [total_latency_ms] by the very [latency_ms] reported to the client; the
    request's context is echoed and the source tag is the fixed one. *)
Theorem single_invocation_and_metrics r w w' resp :
  run (analyze_sentiment r) w = (w', OK200 resp) ->
  pipeline_calls w' = pipeline_calls w ++ [OneText (req_text r)] /\
  request_count w' = request_count w + 1 /\
  total_latency_ms w' = total_latency_ms w + latency_ms resp /\
  context resp = req_context r /\
  source resp = "greengrass-edge"%string.
Proof.
  intros Hrun.
  destruct (analyze_sentiment_ok_inv _ _ _ _ Hrun)
    as (cls & result & rest & Hc & Hp & -> & ->).
  cbv zeta. cbn. repeat split.
Qed.

Lemma single_invocation_and_metrics_witness :
  let r := mkSentimentRequest "Service was terrible." (Some "guest_review"%string) in
  let out := run (analyze_sentiment r) Sample.ready in
  pipeline_calls (fst out) = [OneText "Service was terrible."] /\
  request_count (fst out) = 1 /\ total_latency_ms (fst out) = 7.
Proof.
  cbv zeta.
  destruct (single_invocation_and_metrics
              (mkSentimentRequest "Service was terrible." (Some "guest_review"%string))
              Sample.ready _ _ eq_refl) as (Hcalls & Hrc & Htl & _).
  split; [exact Hcalls|]. split; [exact Hrc | exact Htl].
Defined.

(** X3: the batch handler called on an empty list (which the route's
    validation never lets through) answers 500 after the capability has
    returned: the division by the list length fails once the counters have
    been updated, so [total_latency_ms] has grown by the measured duration
    although the call failed. *)
Theorem empty_batch_fails_after_update w cls rs :
  classifier w = Some cls ->
  pipe_call cls (ManyTexts []) = Returned rs ->
  let out := run (analyze_batch (mkBatchSentimentRequest [])) w in
  http_status (snd out) = 500 /\
  request_count (fst out) = request_count w /\
  total_latency_ms (fst out) =
    total_latency_ms w
    + elapsed_ms (wall_clock w (ticks w)) (wall_clock w (S (ticks w))) /\
  pipeline_calls (fst out) = pipeline_calls w ++ [ManyTexts []].
Proof.
  intros Hc Hp. cbv zeta.
  destruct (analyze_batch_cases (mkBatchSentimentRequest []) w)
    as [[Hc' _] | [(c & msg & Hc' & Hp' & _) | [(c & rs' & Hc' & Hp' & _ & ->)
       | (c & rs' & _ & _ & Hne & _)]]]; cbn [req_texts] in *; try congruence.
  cbn. repeat split. lia.
Qed.

Lemma empty_batch_fails_after_update_witness :
  let out := run (analyze_batch (mkBatchSentimentRequest [])) Sample.ready in
  http_status (snd out) = 500 /\ request_count (fst out) = 0 /\
  total_latency_ms (fst out) = 7.
Proof.
  cbv zeta.
  destruct (empty_batch_fails_after_update Sample.ready Sample.pipe [] eq_refl eq_refl)
    as (Hs & Hrc & Htl & _).
  split; [exact Hs|]. split; [exact Hrc | exact Htl].
Defined.

(** ** Shape of batch responses *)

Lemma batch_items_texts_firstn lat texts : forall rs,
  map item_text (batch_items lat texts rs) = firstn (List.length rs) texts.
Proof.
  induction texts as [|t texts IH]; intros [|r rs]; simpl; try reflexivity.
  f_equal. apply IH.
Qed.

Lemma sum_latencies_constant lat items :
  Forall (fun it => item_latency_ms it = lat) items ->
  sum_latencies items = Z.of_nat (List.length items) * lat.
Proof.
  induction 1 as [|it items Hit _ IH]; [reflexivity|].
  change (sum_latencies (it :: items)) with (item_latency_ms it + sum_latencies items).
  rewrite IH, Hit. cbn [List.length]. lia.
Qed.

(** X4: the results of a batch are the zip of the texts with the outputs of
    the capability: their number is the smaller of the two lengths and they
    echo the leading texts in order, while [count] is the number of texts
    sent whatever the capability returned.  So when the capability returns
    fewer outputs than texts, the answer is still 200, with fewer results
    than [count]. *)
Theorem batch_results_zip r w w' resp :
  run (analyze_batch r) w = (w', OK200 resp) ->
  exists cls rs,
    classifier w = Some cls /\
    pipe_call cls (ManyTexts (req_texts r)) = Returned rs /\
    List.length (results resp)
      = Nat.min (List.length (req_texts r)) (List.length rs) /\
    map item_text (results resp) = firstn (List.length rs) (req_texts r) /\
    count resp = Z.of_nat (List.length (req_texts r)) /\
    ((List.length rs < List.length (req_texts r))%nat ->
     Z.of_nat (List.length (results resp)) < count resp).
Proof.
  intros Hrun.
  destruct (analyze_batch_ok_inv _ _ _ _ Hrun) as (cls & rs & Hc & Hp & Hn & _ & ->).
  cbv zeta in *. cbn [results count].
  exists cls, rs. split; [exact Hc|]. split; [exact Hp|].
  split; [apply batch_items_length|].
  split; [apply batch_items_texts_firstn|].
  split; [reflexivity|].
  intros Hlt. rewrite batch_items_length. lia.
Qed.

Lemma batch_results_zip_witness :
  let short := mkPipeline (fun _ => Returned [Sample.positive]) in
  let w := mkWorld (Some short) 0 0 0 Sample.clock 1%nat [] in
  exists resp,
    snd (run (analyze_batch (mkBatchSentimentRequest Sample.texts3)) w) = OK200 resp /\
    List.length (results resp) = 1%nat /\ count resp = 3.
Proof.
  cbv zeta. eexists. split; [reflexivity|].
  destruct (batch_results_zip (mkBatchSentimentRequest Sample.texts3)
              (mkWorld (Some (mkPipeline (fun _ => Returned [Sample.positive])))
                       0 0 0 Sample.clock 1%nat []) _ _ eq_refl)
    as (cls & rs & _ & _ & _ & _ & Hcount & _).
  split; [reflexivity | exact Hcount].
Defined.

(** X5: in a 200 batch answer the per-text latencies never add up to more
    than the batch total when there is one result per text: with [per] the
    latency carried by every entry and N the count, N * per <= total <
    N * per + N, and the entries sum to (number of results) * per. *)
Theorem batch_latency_sum r w w' resp :
  run (analyze_batch r) w = (w', OK200 resp) ->
  let per := batch_total_latency_ms resp / count resp in
  sum_latencies (results resp) = Z.of_nat (List.length (results resp)) * per /\
  count resp * per <= batch_total_latency_ms resp /\
  batch_total_latency_ms resp < count resp * per + count resp /\
  (List.length (results resp) = List.length (req_texts r) ->
   sum_latencies (results resp) <= batch_total_latency_ms resp).
Proof.
  intros Hrun. cbv zeta.
  destruct (analyze_batch_ok_inv _ _ _ _ Hrun) as (cls & rs & Hc & Hp & Hn & _ & ->).
  cbv zeta in *. cbn [results count batch_total_latency_ms].
  set (n := Z.of_nat (List.length (req_texts r))) in *.
  set (total := elapsed_ms (wall_clock w (ticks w)) (wall_clock w (S (ticks w)))).
  assert (Hpos : 0 < n) by (unfold n; lia).
  pose proof (Z.mul_div_le total n Hpos) as Hle.
  pose proof (Z.mul_succ_div_gt total n Hpos) as Hgt.
  rewrite (sum_latencies_constant (total / n)) by apply batch_items_latency.
  split; [reflexivity|]. split; [exact Hle|]. split; [lia|].
  intros Hlen. rewrite Hlen. fold n. exact Hle.
Qed.

Lemma batch_latency_sum_witness :
  exists resp,
    snd (run (analyze_batch (mkBatchSentimentRequest Sample.texts3)) Sample.ready)
      = OK200 resp /\
    sum_latencies (results resp) = 6 /\ batch_total_latency_ms resp = 7.
Proof.
  eexists. split; [reflexivity|].
  destruct (batch_latency_sum (mkBatchSentimentRequest Sample.texts3)
              Sample.ready _ _ eq_refl) as (Hsum & _).
  split; [exact Hsum | reflexivity].
Defined.

(** ** Measured latency *)

Lemma to_int_floor (x : Q) : (0 <= x)%Q -> to_int x = Qfloor x.
Proof.
  intros Hx. unfold to_int. destruct x as [n d]. cbn [Qnum Qden Qfloor].
  apply Z.quot_div_nonneg; [|lia].
  unfold Qle in Hx. simpl in Hx. lia.
Qed.

Lemma elapsed_ms_nonneg (start stop : Q) :
  (start <= stop)%Q -> 0 <= elapsed_ms start stop.
Proof.
  intros Hle. unfold elapsed_ms.
  assert (Hx : (0 <= (stop - start) * inject_Z 1000)%Q).
  { apply Qmult_le_0_compat; [|discriminate]. lra. }
  rewrite (to_int_floor _ Hx).
  change 0 with (Qfloor 0). apply Qfloor_resp_le, Hx.
Qed.

(** ** What serving requests keeps and what it changes *)

(** A request never touches the clock oracle or the start time, and the
    clock reading index only advances. *)
Lemma serve_frame q w :
  let w' := fst (run (serve q) w) in
  wall_clock w' = wall_clock w /\ start_time w' = start_time w /\
  (ticks w <= ticks w')%nat.
Proof.
  cbv zeta. destruct q as [r | r | | ].
  - rewrite serve_POST_analyze. destruct (SentimentRequest_valid r); cbn [fst];
      [|repeat split; lia].
    destruct (analyze_sentiment_cases r w)
      as [[_ ->] | [(cls & msg & _ & _ & ->) | [(cls & _ & _ & ->)
         | (cls & result & rest & _ & _ & ->)]]]; cbn; repeat split; lia.
  - rewrite serve_POST_analyze_batch. destruct (BatchSentimentRequest_valid r); cbn [fst];
      [|repeat split; lia].
    destruct (analyze_batch_cases r w)
      as [[_ ->] | [(cls & msg & _ & _ & ->) | [(cls & rs & _ & _ & _ & ->)
         | (cls & rs & _ & _ & _ & ->)]]]; cbn; repeat split; lia.
  - cbn. repeat split; lia.
  - cbn. repeat split; lia.
Qed.

(** One request: the request counter does not decrease, and with a clock
    that never runs backwards neither does the latency total. *)
Lemma serve_counters_grow q w :
  let w' := fst (run (serve q) w) in
  request_count w <= request_count w' /\
  (monotone_clock (wall_clock w) -> total_latency_ms w <= total_latency_ms w').
Proof.
  cbv zeta.
  assert (Hel : monotone_clock (wall_clock w) ->
                0 <= elapsed_ms (wall_clock w (ticks w)) (wall_clock w (S (ticks w)))).
  { intros Hm. apply elapsed_ms_nonneg, Hm. }
  destruct q as [r | r | | ].
  - rewrite serve_POST_analyze. destruct (SentimentRequest_valid r); cbn [fst];
      [|split; [lia | intros _; lia]].
    destruct (analyze_sentiment_cases r w)
      as [[_ ->] | [(cls & msg & _ & _ & ->) | [(cls & _ & _ & ->)
         | (cls & result & rest & _ & _ & ->)]]]; cbn;
      (split; [lia | intros Hm; specialize (Hel Hm); lia]).
  - rewrite serve_POST_analyze_batch. destruct (BatchSentimentRequest_valid r); cbn [fst];
      [|split; [lia | intros _; lia]].
    destruct (analyze_batch_cases r w)
      as [[_ ->] | [(cls & msg & _ & _ & ->) | [(cls & rs & _ & _ & _ & ->)
         | (cls & rs & _ & _ & _ & ->)]]]; cbn;
      (split; [lia | intros Hm; specialize (Hel Hm); lia]).
  - cbn. split; [lia | intros _; lia].
  - cbn. split; [lia | intros _; lia].
Qed.

Lemma serve_all_frame qs : forall w,
  wall_clock (serve_all qs w) = wall_clock w /\
  start_time (serve_all qs w) = start_time w /\
  (ticks w <= ticks (serve_all qs w))%nat.
Proof.
  induction qs as [|q qs IH]; intros w; [repeat split; simpl; lia|].
  change (serve_all (q :: qs) w) with (serve_all qs (fst (run (serve q) w))).
  destruct (IH (fst (run (serve q) w))) as (Hc & Hs & Ht).
  destruct (serve_frame q w) as (Hc' & Hs' & Ht').
  rewrite Hc, Hs. repeat split; auto. lia.
Qed.

Lemma serve_all_counters_grow qs w :
  request_count w <= request_count (serve_all qs w) /\
  (monotone_clock (wall_clock w) ->
   total_latency_ms w <= total_latency_ms (serve_all qs w)).
Proof.
  revert w. induction qs as [|q qs IH]; intros w; [split; [simpl; lia | intros _; simpl; lia]|].
  change (serve_all (q :: qs) w) with (serve_all qs (fst (run (serve q) w))).
  destruct (IH (fst (run (serve q) w))) as (Hrc & Htl).
  destruct (serve_counters_grow q w) as (Hrc' & Htl').
  destruct (serve_frame q w) as (Hc & _).
  split; [lia|]. intros Hm.
  specialize (Htl' Hm). rewrite Hc in Htl. specialize (Htl Hm). lia.
Qed.

(** X7: over any sequence of requests the two counters only grow:
    [request_count] never decreases, and when the clock never runs backwards
    [total_latency_ms] never decreases either. *)
Theorem counters_only_grow qs w :
  request_count w <= request_count (serve_all qs w) /\
  (monotone_clock (wall_clock w) ->
   total_latency_ms w <= total_latency_ms (serve_all qs w)).
Proof.
  destruct (serve_all_counters_grow qs w) as (Hrc & Htl).
  split; [exact Hrc | exact Htl].
Qed.

Lemma sample_clock_monotone : monotone_clock Sample.clock.
Proof.
  intros n. unfold Sample.clock, Qle. cbn [Qnum Qden]. lia.
Qed.

Lemma counters_only_grow_witness :
  let qs := [POST_analyze_batch (mkBatchSentimentRequest Sample.texts3); GET_health] in
  0 <= total_latency_ms (serve_all qs Sample.ready) /\
  total_latency_ms (serve_all qs Sample.ready) = 7.
Proof.
  cbv zeta. split; [|reflexivity].
  destruct (counters_only_grow
              [POST_analyze_batch (mkBatchSentimentRequest Sample.texts3); GET_health]
              Sample.ready) as (_ & Htl).
  apply Htl. exact sample_clock_monotone.
Defined.

(** ** Polling the read-only endpoints *)

Lemma serve_read_only q w :
  read_only q = true -> fst (run (serve q) w) = tick w.
Proof. destruct q; try discriminate; reflexivity. Qed.

(** X8: polling changes nothing that is reported: after any number of health
    and metrics queries the model, both counters and the invocation log are
    as before, so the health query reports the same status, request total
    and average latency as it would have before the polling. *)
Theorem polling_changes_nothing qs w :
  forallb read_only qs = true ->
  let w' := serve_all qs w in
  classifier w' = classifier w /\
  request_count w' = request_count w /\
  total_latency_ms w' = total_latency_ms w /\
  pipeline_calls w' = pipeline_calls w /\
  status (snd (run health_check w')) = status (snd (run health_check w)) /\
  total_requests (snd (run health_check w')) = total_requests (snd (run health_check w)) /\
  avg_latency_ms (snd (run health_check w')) = avg_latency_ms (snd (run health_check w)).
Proof.
  cbv zeta. revert w. induction qs as [|q qs IH]; intros w Hro.
  - repeat split.
  - simpl in Hro. apply andb_true_iff in Hro. destruct Hro as [Hq Hqs].
    change (serve_all (q :: qs) w) with (serve_all qs (fst (run (serve q) w))).
    rewrite (serve_read_only q w Hq).
    destruct (IH (tick w) Hqs) as (H1 & H2 & H3 & H4 & H5 & H6 & H7).
    rewrite H1, H2, H3, H4, H5, H6, H7. repeat split.
Qed.

Lemma polling_changes_nothing_witness :
  let w := fst (run (analyze_batch (mkBatchSentimentRequest Sample.texts3)) Sample.ready) in
  let w' := serve_all [GET_health; GET_metrics; GET_health] w in
  request_count w' = 3 /\ total_latency_ms w' = 7.
Proof.
  cbv zeta.
  destruct (polling_changes_nothing [GET_health; GET_metrics; GET_health]
              (fst (run (analyze_batch (mkBatchSentimentRequest Sample.texts3))
                        Sample.ready)) eq_refl) as (_ & Hrc & Htl & _).
  split; [exact Hrc | exact Htl].
Defined.

(** ** Readiness seen from the four endpoints *)

(** X9: the four endpoints agree on readiness: in any world, the health
    query says healthy exactly when the metrics query reports status 1, and
    exactly when neither inference endpoint answers 503. *)
Theorem readiness_agrees w single batch :
  let healthy := status (snd (run health_check w)) = "healthy"%string in
  (healthy <-> sentiment_service_status (snd (run get_metrics w)) = 1) /\
  (healthy <-> http_status (snd (run (analyze_sentiment single) w)) <> 503) /\
  (healthy <-> http_status (snd (run (analyze_batch batch) w)) <> 503).
Proof.
  cbv zeta. rewrite health_check_run, get_metrics_run.
  cbn [snd status sentiment_service_status].
  destruct (analyze_sentiment_cases single w)
    as [[Hc ->] | [(cls & msg & Hc & _ & ->) | [(cls & Hc & _ & ->)
       | (cls & result & rest & Hc & _ & ->)]]];
  destruct (analyze_batch_cases batch w)
    as [[Hc' ->] | [(cls' & msg' & Hc' & _ & ->) | [(cls' & rs' & Hc' & _ & _ & ->)
       | (cls' & rs' & Hc' & _ & _ & ->)]]];
  try congruence; rewrite Hc; cbn;
    repeat split; try discriminate; try congruence; auto.
Qed.

(** ** Startup *)

Lemma startup_counters load w :
  request_count (fst (run (startup_event load) w)) = request_count w /\
  total_latency_ms (fst (run (startup_event load) w)) = total_latency_ms w.
Proof.
  destruct load as [p|msg]; [rewrite startup_event_loaded|]; split; reflexivity.
Qed.

(** X10: the startup hook never touches the two counters, so the warm-up
    inference is not counted as a request; it invokes the capability exactly
    once, on the warm-up sentence, when the load succeeds, and not at all
    when the load fails; the model is installed exactly when the load
    succeeds; and the hook raises exactly when the load or the warm-up
    raises. *)
Theorem startup_effects load w :
  let out := run (startup_event load) w in
  request_count (fst out) = request_count w /\
  total_latency_ms (fst out) = total_latency_ms w /\
  match load with
  | Raised msg =>
      snd out = Raised msg /\
      classifier (fst out) = classifier w /\
      pipeline_calls (fst out) = pipeline_calls w
  | Returned p =>
      classifier (fst out) = Some p /\
      pipeline_calls (fst out) = pipeline_calls w ++ [OneText warmup_text] /\
      (snd out = Returned tt <->
       exists rs, pipe_call p (OneText warmup_text) = Returned rs) /\
      (forall msg, snd out = Raised msg <->
                   pipe_call p (OneText warmup_text) = Raised msg)
  end.
Proof.
  cbv zeta. destruct load as [p|msg].
  - rewrite startup_event_loaded. cbn [fst snd].
    split; [reflexivity|]. split; [reflexivity|].
    split; [reflexivity|]. split; [reflexivity|].
    destruct (pipe_call p (OneText warmup_text)) as [rs|m]; split.
    + split; [intros _; exists rs; reflexivity | reflexivity].
    + intros m. split; discriminate.
    + split; [discriminate | intros [rs E]; discriminate E].
    + intros m'. split; intros E; inversion E; reflexivity.
  - cbn. repeat split.
Qed.

(** ** Status codes *)

(** X12: every reply has status 200, 422, 500 or 503; the read-only
    endpoints always answer 200; a valid inference request is answered 503
    exactly when no model is loaded. *)
Theorem reply_statuses q w :
  let s := reply_status (snd (run (serve q) w)) in
  (s = 200 \/ s = 422 \/ s = 500 \/ s = 503) /\
  (read_only q = true -> s = 200) /\
  (request_valid q = true -> read_only q = false ->
   (s = 503 <-> classifier w = None)).
Proof.
  cbv zeta. destruct q as [r | r | | ].
  - rewrite serve_POST_analyze. cbn [request_valid read_only].
    destruct (SentimentRequest_valid r); cbn [snd reply_status];
      [|split; [auto | split; discriminate]].
    destruct (analyze_sentiment_cases r w)
      as [[Hc ->] | [(cls & msg & Hc & _ & ->) | [(cls & Hc & _ & ->)
         | (cls & result & rest & Hc & _ & ->)]]]; cbn [snd http_status];
      (split; [auto | split; [discriminate|]]); intros _ _;
      split; try discriminate; try congruence; auto.
  - rewrite serve_POST_analyze_batch. cbn [request_valid read_only].
    destruct (BatchSentimentRequest_valid r); cbn [snd reply_status];
      [|split; [auto | split; discriminate]].
    destruct (analyze_batch_cases r w)
      as [[Hc ->] | [(cls & msg & Hc & _ & ->) | [(cls & rs & Hc & _ & _ & ->)
         | (cls & rs & Hc & _ & _ & ->)]]]; cbn [snd http_status];
      (split; [auto | split; [discriminate|]]); intros _ _;
      split; try discriminate; try congruence; auto.
  - cbn. split; [auto | split; [reflexivity | discriminate]].
  - cbn. split; [auto | split; [reflexivity | discriminate]].
Qed.

Lemma reply_statuses_witness :
  reply_status (snd (run (serve GET_metrics) (initial_world Sample.clock))) = 200 /\
  reply_status (snd (run (serve (POST_analyze (mkSentimentRequest "ok" None)))
                         (initial_world Sample.clock))) = 503.
Proof.
  split.
  - destruct (reply_statuses GET_metrics (initial_world Sample.clock)) as (_ & Hro & _).
    apply Hro. reflexivity.
  - destruct (reply_statuses (POST_analyze (mkSentimentRequest "ok" None))
                (initial_world Sample.clock)) as (_ & _ & H503).
    apply (H503 eq_refl eq_refl). reflexivity.
Defined.

(** ** A worker from startup on *)

Lemma monotone_clock_from_zero clock n :
  monotone_clock clock -> (clock 0%nat <= clock n)%Q.
Proof.
  intros Hm. induction n as [|n IH]; [apply Qle_refl|].
  eapply Qle_trans; [exact IH | apply Hm].
Qed.

Lemma startup_frame load w :
  let w' := fst (run (startup_event load) w) in
  wall_clock w' = wall_clock w /\ start_time w' = start_time w.
Proof.
  cbv zeta. destruct load as [p|msg].
  - rewrite startup_event_loaded. split; reflexivity.
  - split; reflexivity.
Qed.

Lemma avg_latency_nonneg w :
  0 <= total_latency_ms w -> (0 <= avg_latency w)%Q.
Proof.
  intros Htl. unfold avg_latency.
  destruct (Z.ltb_spec 0 (request_count w)) as [Hrc|_]; [|apply Qle_refl].
  apply b64_nonneg. apply Qle_shift_div_l.
  - change 0%Q with (inject_Z 0). rewrite <- Zlt_Qlt. exact Hrc.
  - rewrite Qmult_0_l. change 0%Q with (inject_Z 0). rewrite <- Zle_Qle. exact Htl.
Qed.

(** X13: in a worker whose clock never runs backwards, whatever the outcome
    of the startup and whatever requests have been served, what the health
    and metrics queries report is never negative: the request total, the
    latency total, the uptime and the average latency. *)
Theorem worker_metrics_nonneg clock load qs :
  monotone_clock clock ->
  let w := worker_world clock load qs in
  let h := snd (run health_check w) in
  let m := snd (run get_metrics w) in
  0 <= total_requests h /\
  0 <= sentiment_service_latency_total_ms m /\
  0 <= uptime_seconds h /\
  0 <= sentiment_service_uptime_seconds m /\
  (0 <= avg_latency_ms h)%Q /\
  (0 <= sentiment_service_latency_avg_ms m)%Q.
Proof.
  intros Hm. cbv zeta. rewrite health_check_run, get_metrics_run.
  cbn [snd total_requests sentiment_service_latency_total_ms uptime_seconds
       sentiment_service_uptime_seconds avg_latency_ms sentiment_service_latency_avg_ms].
  unfold worker_world.
  set (w1 := fst (run (startup_event load) (initial_world clock))).
  destruct (startup_counters load (initial_world clock)) as (Hrc1 & Htl1).
  destruct (startup_frame load (initial_world clock)) as (Hcl1 & Hst1).
  fold w1 in Hrc1, Htl1, Hcl1, Hst1. cbn in Hrc1, Htl1, Hcl1, Hst1.
  destruct (serve_all_counters_grow qs w1) as (Hrc & Htl).
  destruct (serve_all_frame qs w1) as (Hcl & Hst & _).
  rewrite Hcl1 in Htl. specialize (Htl Hm).
  assert (Htl0 : 0 <= total_latency_ms (serve_all qs w1)) by lia.
  assert (Hup : 0 <= to_int (wall_clock (serve_all qs w1) (ticks (serve_all qs w1))
                             - start_time (serve_all qs w1))%Q).
  { rewrite Hcl, Hst, Hcl1, Hst1.
    pose proof (monotone_clock_from_zero clock (ticks (serve_all qs w1)) Hm) as H0.
    rewrite to_int_floor by lra.
    change 0 with (Qfloor 0). apply Qfloor_resp_le. lra. }
  assert (Havg : (0 <= round2 (avg_latency (serve_all qs w1)))%Q).
  { unfold round2.
    pose proof (avg_latency_nonneg _ Htl0) as Ha.
    assert (Hy : (0 <= avg_latency (serve_all qs w1) * inject_Z 100)%Q)
      by (apply Qmult_le_0_compat; [exact Ha | discriminate]).
    pose proof (round_half_even_nonneg _ Hy) as Hn.
    apply b64_nonneg. unfold Qle. cbn [Qnum Qden]. lia. }
  repeat split; try assumption; lia.
Qed.

Lemma worker_metrics_nonneg_witness :
  let w := worker_world Sample.clock (Returned Sample.pipe)
             [POST_analyze_batch (mkBatchSentimentRequest Sample.texts3)] in
  0 <= uptime_seconds (snd (run health_check w)) /\
  total_requests (snd (run health_check w)) = 3.
Proof.
  cbv zeta. split; [|reflexivity].
  destruct (worker_metrics_nonneg Sample.clock (Returned Sample.pipe)
              [POST_analyze_batch (mkBatchSentimentRequest Sample.texts3)]
              sample_clock_monotone) as (_ & _ & Hup & _).
  exact Hup.
Defined.

(** ** Errors and the counters, over the routes *)

(** X14: over the routes, a request is counted exactly when it is answered
    200 by an inference endpoint: every reply with another status (422, 503
    or 500) leaves both counters as they were, and a 200 reply to an
    inference request increases [request_count]. *)
Theorem counted_iff_answered_ok q w :
  let out := run (serve q) w in
  (reply_status (snd out) <> 200 ->
   request_count (fst out) = request_count w /\
   total_latency_ms (fst out) = total_latency_ms w) /\
  (read_only q = false -> reply_status (snd out) = 200 ->
   request_count w < request_count (fst out)).
Proof.
  cbv zeta. destruct q as [r | r | | ].
  - rewrite serve_POST_analyze.
    destruct (SentimentRequest_valid r); cbn [fst snd reply_status];
      [|split; [auto | discriminate]].
    destruct (analyze_sentiment_cases r w)
      as [[Hc ->] | [(cls & msg & Hc & _ & ->) | [(cls & Hc & _ & ->)
         | (cls & result & rest & Hc & _ & ->)]]]; cbn;
      (split; [intros Hne; try (exfalso; apply Hne; reflexivity); auto
              | intros _ E; try discriminate E; lia]).
  - rewrite serve_POST_analyze_batch.
    destruct (BatchSentimentRequest_valid r) eqn:Hv; cbn [fst snd reply_status];
      [|split; [auto | discriminate]].
    apply BatchSentimentRequest_valid_iff in Hv.
    destruct (analyze_batch_cases r w)
      as [[Hc ->] | [(cls & msg & Hc & _ & ->) | [(cls & rs & Hc & _ & Hempty & ->)
         | (cls & rs & Hc & _ & _ & ->)]]]; cbn;
      try (rewrite Hempty in Hv; simpl in Hv; lia);
      (split; [intros Hne; try (exfalso; apply Hne; reflexivity); auto
              | intros _ E; try discriminate E; lia]).
  - cbn. split; [intros _; auto | discriminate].
  - cbn. split; [intros _; auto | discriminate].
Qed.

Lemma counted_iff_answered_ok_witness :
  let failing := mkWorld (Some Sample.broken_pipe) 0 5 40 Sample.clock 1%nat [] in
  let bad := POST_analyze (mkSentimentRequest "ok" None) in
  let good := POST_analyze_batch (mkBatchSentimentRequest Sample.texts3) in
  request_count (fst (run (serve bad) failing)) = 5 /\
  0 < request_count (fst (run (serve good) Sample.ready)).
Proof.
  cbv zeta. split.
  - destruct (counted_iff_answered_ok (POST_analyze (mkSentimentRequest "ok" None))
                (mkWorld (Some Sample.broken_pipe) 0 5 40 Sample.clock 1%nat []))
      as (Herr & _).
    apply Herr. vm_compute. discriminate.
  - destruct (counted_iff_answered_ok
                (POST_analyze_batch (mkBatchSentimentRequest Sample.texts3))
                Sample.ready) as (_ & Hok).
    apply (Hok eq_refl eq_refl).
Defined.
